(** * Spreadsheet analysis orchestrator: a model of [analyze_spreadsheet_agent.py]

    The script is one sequential function, [run_analysis], and a command-line
    entry point, [main].  Everything it does is an effect: it opens the
    workbook, calls the vendor SDK six ways, prints, and writes the files the
    remote job produced.  The model below keeps those effects explicit:

    - the local disk is a finite map from file to contents;
    - every effect leaves an [event] in a trace, in program order;
    - the SDK client and the operating system are an injected environment
      [Env], so that any remote behaviour can be supplied;
    - Python exceptions are the [Raises] outcome, and they keep what was
      already written and traced, as an uncaught exception does. *)

From stdpp Require Import gmap strings list.

Local Open Scope string_scope.
Local Open Scope list_scope.

(** ** Python values used by the script *)

(** Contents of a file opened in binary mode. *)
Abbreviation bytes := string.

(** Truth value of a [str | None]: [None] and the empty string are false. *)
Definition truthy (o : option string) : bool :=
  match o with
  | Some s => negb (String.eqb s "")
  | None => false
  end.

(** [a or b] where [a : str | None] and [b : str]. *)
Definition py_or (a : option string) (b : string) : string :=
  match a with
  | Some s => if String.eqb s "" then b else s
  | None => b
  end.

(** The two kinds of exception that can leave [run_analysis]: the ones the SDK
    raises (client construction, any request) and the ones the builtin [open]
    raises ([FileNotFoundError], [PermissionError], ... all [OSError]). *)
Inductive exn :=
| OpenAIError (msg : string)
| OSError (path : string).

Inductive outcome (A : Type) :=
| Returns (a : A)
| Raises (e : exn).
Arguments Returns {A} a.
Arguments Raises {A} e.

(** ** Objects exchanged with the SDK *)

Record FileObject := { id_of_file : string }.
Record Agent := { id_of_agent : string }.
Record Thread := { id_of_thread : string }.

(** States of a job.  The script never names them; they are the states of the
    job state machine, carried by the run object the SDK hands back. *)
Inductive Status := created | queued | running | succeeded | failed | cancelled | expired.


(** One element of [run.output].  The loop reads [type], [file_id] and
    [filename]; [text] is what a text element carries. *)
Record OutputItem := {
  type_ : string;
  text : string;
  file_id : string;
  filename : option string
}.

Record Run := {
  status : Status;
  output_text : option string;
  output : list OutputItem
}.

(** Keyword arguments of [client.agents.create]. *)
Record Tool := { tool_type : string }.
Record AgentParams := {
  name : string;
  model : string;
  instructions : string;
  tools : list Tool
}.

(** Elements of the [content] and [attachments] lists of a message. *)
Record ContentPart := { part_type : string; part_text : string }.
Record Attachment := { attached_file_id : string }.

(** A request made through the client, with its arguments. *)
Inductive call :=
| files_create (file : bytes) (purpose : string)
| agents_create (params : AgentParams)
| threads_create
| messages_create (thread_id role : string)
    (content : list ContentPart) (attachments : list Attachment)
| runs_create_and_poll (thread_id agent_id : string)
| files_content (file_id : string).

(** What the service answers: a value, or an error the SDK raises. *)
Inductive reply (A : Type) :=
| Answer (a : A)
| Failure (msg : string).
Arguments Answer {A} a.
Arguments Failure {A} msg.

(** The client as a set of capabilities.  Each field is the behaviour of one
    SDK method on its arguments. *)
Record Client := {
  on_files_create : bytes -> string -> reply FileObject;
  on_agents_create : AgentParams -> reply Agent;
  on_threads_create : reply Thread;
  on_messages_create :
    string -> string -> list ContentPart -> list Attachment -> reply unit;
  on_runs_create_and_poll : string -> string -> reply Run;
  on_files_content : string -> reply bytes
}.

(** ** Environment, disk and trace *)

(** What the script does not decide: the credential in the process
    environment, the service reached with a given credential, and the
    operating system's view of paths ([realpath] maps a path, taken from the
    current working directory, to the file it denotes). *)
Record Env := {
  OPENAI_API_KEY : option string;
  service : string -> Client;
  realpath : string -> string;
  readable : string -> bool;
  writable : string -> bool
}.

Inductive event :=
| ev_read (path : string)
| ev_call (c : call)
| ev_print (line : string)
| ev_write (path : string) (content : bytes).

Abbreviation Disk := (gmap string bytes).

(** A computation takes the disk and gives an outcome, the new disk and the
    events it produced. *)
Definition M (A : Type) : Type := Disk -> outcome A * Disk * list event.

Definition ret {A} (a : A) : M A := fun d => (Returns a, d, []).

Definition raise {A} (e : exn) : M A := fun d => (Raises e, d, []).

Definition bind {A B} (m : M A) (k : A -> M B) : M B :=
  fun d =>
    match m d with
    | (Returns a, d1, t1) =>
        match k a d1 with
        | (r, d2, t2) => (r, d2, t1 ++ t2)
        end
    | (Raises e, d1, t1) => (Raises e, d1, t1)
    end.

Notation "'do' x <- m ;; k" := (bind m (fun x => k))
  (at level 10, x name, m at level 99, k at level 200).
Notation "'do_' m ;; k" := (bind m (fun _ => k))
  (at level 10, m at level 99, k at level 200).

Definition result_of {A} (x : outcome A * Disk * list event) : outcome A := x.1.1.
Definition disk_of {A} (x : outcome A * Disk * list event) : Disk := x.1.2.
Definition trace_of {A} (x : outcome A * Disk * list event) : list event := x.2.

(** ** Primitive effects *)

(** [open(path, "rb")] followed by reading the whole file. *)
Definition open_rb (E : Env) (path : string) : M bytes :=
  fun d =>
    match d !! realpath E path with
    | Some data =>
        if readable E path then (Returns data, d, [ev_read path])
        else (Raises (OSError path), d, [])
    | None => (Raises (OSError path), d, [])
    end.

(** [with open(path, "wb") as f: f.write(content)]. *)
Definition open_wb_write (E : Env) (path : string) (content : bytes) : M unit :=
  fun d =>
    if writable E path
    then (Returns tt, <[realpath E path := content]> d, [ev_write path content])
    else (Raises (OSError path), d, []).

Definition print (line : string) : M unit :=
  fun d => (Returns tt, d, [ev_print line]).

(** A request: the call is traced, then the service's reply decides. *)
Definition request {A} (c : call) (r : reply A) : M A :=
  fun d =>
    match r with
    | Answer a => (Returns a, d, [ev_call c])
    | Failure msg => (Raises (OpenAIError msg), d, [ev_call c])
    end.

(** What the SDK's constructor raises when it finds no credential. *)
Definition missing_credential : exn :=
  OpenAIError
    ("The api_key client option must be set either by passing api_key to "
     +:+ "the client or by setting the OPENAI_API_KEY environment variable").

(** [OpenAI(api_key=...)]: with no key given the SDK reads the environment,
    and raises when it finds none.  No request is made. *)
Definition OpenAI (E : Env) (api_key : option string) : M Client :=
  match api_key with
  | Some k => ret (service E k)
  | None =>
      match OPENAI_API_KEY E with
      | Some k => ret (service E k)
      | None => raise missing_credential
      end
  end.

(** ** The script *)

Definition dq : string := String (Ascii.ascii_of_nat 34) EmptyString.
Definition nl : string := String (Ascii.ascii_of_nat 10) EmptyString.

Definition unlines (ls : list string) : string := String.concat nl ls.

Definition ANALYST_INSTRUCTIONS : string := unlines [
    "";
    "You are a meticulous data analyst working ONLY with the Excel workbook available inside the Code Interpreter container.";
    "";
    "STEP 1 — PROFILE:";
    "- Use Code Interpreter to open the workbook safely (the file has been uploaded to your container).";
    "- Enumerate sheet names. For each sheet:";
    "  - sample up to 10 rows (head), row count, and column count";
    "  - list columns with inferred dtype (numeric/date/text/categorical) and % missing";
    "  - note likely primary keys or unique identifier columns (if any)";
    "  - detect obvious date columns and normalize to ISO-8601 (YYYY-MM-DD) in memory (do not overwrite original)";
    "- Output a compact JSON object called DATA_DICTIONARY with this structure:";
    "  {";
    "    " +:+ dq +:+ "sheets" +:+ dq +:+ ": [";
    "      {";
    "        " +:+ dq +:+ "name" +:+ dq +:+ ": " +:+ dq +:+ "..." +:+ dq +:+ ",";
    "        " +:+ dq +:+ "rows" +:+ dq +:+ ": 12345,";
    "        " +:+ dq +:+ "cols" +:+ dq +:+ ": 12,";
    "        " +:+ dq +:+ "columns" +:+ dq +:+ ": [";
    "          {" +:+ dq +:+ "name" +:+ dq +:+ ": " +:+ dq +:+ "col_a" +:+ dq +:+ ", " +:+ dq +:+ "inferred_type" +:+ dq +:+ ": " +:+ dq +:+ "numeric|date|text|categorical" +:+ dq +:+ ", " +:+ dq +:+ "missing_pct" +:+ dq +:+ ": 0.12, " +:+ dq +:+ "unique_ct" +:+ dq +:+ ": 999}";
    "        ],";
    "        " +:+ dq +:+ "sample" +:+ dq +:+ ": [ ... up to 10 rows ... ]";
    "      }";
    "    ],";
    "    " +:+ dq +:+ "notes" +:+ dq +:+ ": [" +:+ dq +:+ "any parsing warnings or assumptions" +:+ dq +:+ "]";
    "  }";
    "- Save this JSON to a file named data_dictionary.json and also print it in the text output.";
    "";
    "STEP 2 — PLAN:";
    "- Based on the DATA_DICTIONARY, draft a short PLAN (bulleted) describing how to answer the user question.";
    "- If required columns/sheets are missing or ambiguous, state that clearly and propose fallback options.";
    "";
    "STEP 3 — ANSWER:";
    "- Execute the PLAN using pandas. Prefer memory-efficient operations and sampling if the sheet is huge.";
    "- If a plot helps, produce a simple chart (PNG). Titles and axis labels must be clear and short.";
    "- End with a short, actionable TL;DR.";
    "";
    "Constraints:";
    "- No external internet access.";
    "- Do not write back to the source file; transformations should be in-memory only.";
    "- Be explicit about any assumptions.";
    ""
  ].

(** The keyword arguments of the one [client.agents.create] call. *)
Definition analyst_params : AgentParams := {|
  name := "Spreadsheet Analyst";
  model := "gpt-4.1";
  instructions := ANALYST_INSTRUCTIONS;
  tools := [ {| tool_type := "code_interpreter" |} ]
|}.

(** [filename = item.filename or f"{file_id}"]. *)
Definition save_name (item : OutputItem) : string :=
  py_or (filename item) (file_id item).

Definition is_output_file (item : OutputItem) : bool :=
  String.eqb (type_ item) "output_file".

(** The [for item in run.output] loop: an element whose type is not
    [output_file] is skipped; otherwise the content is fetched by id, then
    written under [save_name], then reported. *)
Fixpoint download_files (E : Env) (client : Client) (items : list OutputItem)
  : M unit :=
  match items with
  | [] => ret tt
  | item :: rest =>
      if negb (is_output_file item) then download_files E client rest
      else
        do content <- request (files_content (file_id item))
                        (on_files_content client (file_id item)) ;;
        do_ open_wb_write E (save_name item) content ;;
        do_ print ("Saved " +:+ save_name item) ;;
        download_files E client rest
  end.

(** What [run_analysis] does with the run it got back: print the text, if
    any, then download the files. *)
Definition fetch_artifacts (E : Env) (client : Client) (run : Run) : M unit :=
  do_ (if truthy (output_text run)
       then print (default "" (output_text run))
       else ret tt) ;;
  download_files E client (output run).

(** The steps between the agent's creation and the end of polling: a new
    thread, the user's message with the uploaded file attached, the run. *)
Definition start_job (client : Client) (agent : Agent) (question : string)
    (uploaded : FileObject) : M Run :=
  do thread <- request threads_create (on_threads_create client) ;;
  do_ request
        (messages_create (id_of_thread thread) "user"
           [ {| part_type := "input_text"; part_text := question |} ]
           [ {| attached_file_id := id_of_file uploaded |} ])
        (on_messages_create client (id_of_thread thread) "user"
           [ {| part_type := "input_text"; part_text := question |} ]
           [ {| attached_file_id := id_of_file uploaded |} ]) ;;
  request
    (runs_create_and_poll (id_of_thread thread) (id_of_agent agent))
    (on_runs_create_and_poll client (id_of_thread thread) (id_of_agent agent)).

Definition run_analysis (E : Env) (workbook : string) (question : string)
    (api_key : option string) : M unit :=
  do client <- (if truthy api_key then OpenAI E api_key else OpenAI E None) ;;
  do f <- open_rb E workbook ;;
  do uploaded <- request (files_create f "assistants")
                   (on_files_create client f "assistants") ;;
  do agent <- request (agents_create analyst_params)
                (on_agents_create client analyst_params) ;;
  do run <- start_job client agent question uploaded ;;
  fetch_artifacts E client run.

(** ** Paths *)

Definition is_slash (c : Ascii.ascii) : bool := Ascii.eqb c (Ascii.ascii_of_nat 47).

(** [s.split("/")]. *)
Fixpoint split_slash (s : string) : list string :=
  match s with
  | EmptyString => [EmptyString]
  | String c rest =>
      if is_slash c then EmptyString :: split_slash rest
      else match split_slash rest with
           | part :: parts => String c part :: parts
           | [] => [String c EmptyString]
           end
  end.

(** [str(Path(s))] on a POSIX system, which is what [open] receives for an
    argument declared with [type=Path]: the root is kept (one slash, or
    two when the string starts with exactly two), empty and [.]
    components are dropped, and the empty path is written [.]. *)
Definition Path (s : string) : string :=
  let '(root, rel) :=
    match s with
    | String c1 rest1 =>
        if is_slash c1 then
          match rest1 with
          | String c2 rest2 =>
              if is_slash c2 then
                match rest2 with
                | String c3 _ =>
                    if is_slash c3 then ("/", rest1) else ("//", rest2)
                | EmptyString => ("//", rest2)
                end
              else ("/", rest1)
          | EmptyString => ("/", rest1)
          end
        else ("", s)
    | EmptyString => ("", s)
    end in
  let tail :=
    List.filter (fun part => negb (String.eqb part "")
                             && negb (String.eqb part "."))
      (split_slash rel) in
  let str := root +:+ String.concat "/" tail in
  if String.eqb str "" then "." else str.

(** How a POSIX system resolves a name given to [open] by a process whose
    working directory is [cwd]: a name that starts with a slash stands for
    itself, any other is taken from [cwd]. *)
Definition is_absolute (p : string) : bool :=
  match p with
  | String c _ => is_slash c
  | EmptyString => false
  end.

Definition resolve_from (cwd p : string) : string :=
  if is_absolute p then p else cwd +:+ "/" +:+ p.

Fixpoint has_slash (s : string) : bool :=
  match s with
  | EmptyString => false
  | String c rest => is_slash c || has_slash rest
  end.

(** A name with no directory part: not empty, no slash, neither [.] nor
    [..]. *)
Definition is_plain_name (s : string) : bool :=
  negb (has_slash s) && negb (String.eqb s "")
  && negb (String.eqb s ".") && negb (String.eqb s "..").

Fixpoint strip_prefix (pre s : string) : option string :=
  match pre with
  | EmptyString => Some s
  | String a pre' =>
      match s with
      | String b s' => if Ascii.eqb a b then strip_prefix pre' s' else None
      | EmptyString => None
      end
  end.

(** [path] is a file of the directory [dir] itself: [dir], a slash, and a
    plain name. *)
Definition in_directory (dir path : string) : bool :=
  match strip_prefix (dir +:+ "/") path with
  | Some base => is_plain_name base
  | None => false
  end.

(** ** Command line *)

(** The command line as [argparse] recognises it: the positional argument
    and, for each option, the value given when the option is present. *)
Record CommandLine := {
  arg_workbook : string;
  opt_question : option string;
  opt_api_key : option string
}.

Record Namespace := {
  ns_workbook : string;
  ns_question : string;
  ns_api_key : option string
}.

Definition DEFAULT_QUESTION : string :=
  "What insights can you derive from this workbook?".

(** [parser.parse_args()]: the positional argument is converted by
    [type=Path]; an absent option takes its declared default, [None] when
    none is declared. *)
Definition parse_args (cl : CommandLine) : Namespace := {|
  ns_workbook := Path (arg_workbook cl);
  ns_question := default DEFAULT_QUESTION (opt_question cl);
  ns_api_key := opt_api_key cl
|}.

Definition main (E : Env) (cl : CommandLine) : M unit :=
  let args := parse_args cl in
  run_analysis E (ns_workbook args) (ns_question args) (ns_api_key args).

(** ** Views of the script and of its traces *)

(** The part of [run_analysis] up to the end of polling, giving the client
    and the run that the rest works on ([run_analysis_split] below shows that
    [run_analysis] is this part followed by [fetch_artifacts]). *)
Definition submit (E : Env) (workbook : string) (question : string)
    (api_key : option string) : M (Client * Run) :=
  do client <- (if truthy api_key then OpenAI E api_key else OpenAI E None) ;;
  do f <- open_rb E workbook ;;
  do uploaded <- request (files_create f "assistants")
                   (on_files_create client f "assistants") ;;
  do agent <- request (agents_create analyst_params)
                (on_agents_create client analyst_params) ;;
  do run <- start_job client agent question uploaded ;;
  ret (client, run).

(** The events of [submit] when every step succeeds: [data] is what the
    workbook holds, [fid], [aid] and [tid] are the ids the service gave to
    the uploaded file, the agent and the thread. *)
Definition submit_events (workbook : string) (data : bytes)
    (question fid aid tid : string) : list event :=
  [ ev_read workbook;
    ev_call (files_create data "assistants");
    ev_call (agents_create analyst_params);
    ev_call threads_create;
    ev_call (messages_create tid "user"
               [ {| part_type := "input_text"; part_text := question |} ]
               [ {| attached_file_id := fid |} ]);
    ev_call (runs_create_and_poll tid aid) ].

(** The three requests of [start_job], in order. *)
Definition start_job_events (question fid aid tid : string) : list event :=
  [ ev_call threads_create;
    ev_call (messages_create tid "user"
               [ {| part_type := "input_text"; part_text := question |} ]
               [ {| attached_file_id := fid |} ]);
    ev_call (runs_create_and_poll tid aid) ].

Definition calls (t : list event) : list call :=
  omap (fun e => match e with ev_call c => Some c | _ => None end) t.

Definition download_ids (t : list event) : list string :=
  omap (fun e => match e with
                 | ev_call (files_content fid) => Some fid
                 | _ => None
                 end) t.

Definition writes (t : list event) : list (string * bytes) :=
  omap (fun e => match e with ev_write p c => Some (p, c) | _ => None end) t.

Definition prints (t : list event) : list string :=
  omap (fun e => match e with ev_print s => Some s | _ => None end) t.

Definition reads (t : list event) : list string :=
  omap (fun e => match e with ev_read p => Some p | _ => None end) t.

(** The elements of an output list that the loop downloads. *)
Definition file_items (items : list OutputItem) : list OutputItem :=
  List.filter is_output_file items.

(** A write [w] is the download of [item]: it goes under the item's save
    name and holds what the service answers for the item's id. *)
Definition wrote (client : Client) (w : string * bytes) (item : OutputItem)
  : Prop :=
  w.1 = save_name item /\ on_files_content client (file_id item) = Answer w.2.

(** The disk after a sequence of writes, oldest first. *)
Definition apply_writes (E : Env) (ws : list (string * bytes)) (d : Disk)
  : Disk :=
  foldl (fun acc w => <[realpath E w.1 := w.2]> acc) d ws.

(** The content last written to file [k] by a sequence of writes. *)
Fixpoint last_write (E : Env) (k : string) (ws : list (string * bytes))
  : option bytes :=
  match ws with
  | [] => None
  | w :: rest =>
      match last_write E k rest with
      | Some c => Some c
      | None => if decide (realpath E w.1 = k) then Some w.2 else None
      end
  end.


(** ** A fake service and sample runs

    A client that accepts every request, answers the polling call with a
    given reply, and serves file contents from a given function; and an
    environment around it in which paths denote themselves and every
    path may be read and written. *)

Definition fake_client (polled : reply Run) (contents : string -> reply bytes)
  : Client := {|
  on_files_create := fun _ _ => Answer {| id_of_file := "file-in" |};
  on_agents_create := fun _ => Answer {| id_of_agent := "agent-1" |};
  on_threads_create := Answer {| id_of_thread := "thread-1" |};
  on_messages_create := fun _ _ _ _ => Answer tt;
  on_runs_create_and_poll := fun _ _ => polled;
  on_files_content := contents
|}.

Definition fake_env (key : option string) (client : Client) : Env := {|
  OPENAI_API_KEY := key;
  service := fun _ => client;
  realpath := fun p => p;
  readable := fun _ => true;
  writable := fun _ => true
|}.

Definition text_item (s : string) : OutputItem :=
  {| type_ := "output_text"; text := s; file_id := ""; filename := None |}.

Definition file_item (fid : string) (fname : option string) : OutputItem :=
  {| type_ := "output_file"; text := ""; file_id := fid; filename := fname |}.

(** Contents served by the fake service: the id, marked. *)
Definition contents_by_id (fid : string) : reply bytes :=
  Answer ("content of " +:+ fid).

(** The run of the sales scenario: one text and two files. *)
Definition sales_run : Run := {|
  status := succeeded;
  output_text := Some "Region A led sales.";
  output := [ text_item "Region A led sales.";
              file_item "f1" (Some "data_dictionary.json");
              file_item "f2" (Some "chart.png") ]
|}.

Definition sales_disk : Disk := {[ "sales.xlsx" := "workbook bytes" ]}.

Definition sales_env : Env :=
  fake_env (Some "sk-test") (fake_client (Answer sales_run) contents_by_id).

(** A job that failed after producing one file. *)
Definition failed_run : Run := {|
  status := failed;
  output_text := None;
  output := [ file_item "f1" (Some "partial.csv") ]
|}.

Definition failed_env : Env :=
  fake_env (Some "sk-test") (fake_client (Answer failed_run) contents_by_id).



(** No credential anywhere. *)
Definition no_key_env : Env :=
  fake_env None (fake_client (Answer sales_run) contents_by_id).

(** A job whose one file is named like the workbook. *)
Definition clobber_run : Run := {|
  status := succeeded;
  output_text := None;
  output := [ file_item "f9" (Some "sales.xlsx") ]
|}.

Definition clobber_env : Env :=
  fake_env (Some "sk-test") (fake_client (Answer clobber_run) contents_by_id).

(** A file element with no suggested name. *)
Definition unnamed_run : Run := {|
  status := succeeded;
  output_text := None;
  output := [ file_item "file-42" None ]
|}.

(** A second workbook, for runs that differ in every argument. *)
Definition budget_disk : Disk := {[ "budget.xlsx" := "other workbook bytes" ]}.

(** Command lines with and without [--question]. *)
Definition plain_command_line : CommandLine := {|
  arg_workbook := "sales.xlsx";
  opt_question := None;
  opt_api_key := None
|}.

Definition asking_command_line : CommandLine := {|
  arg_workbook := "sales.xlsx";
  opt_question := Some "What were total sales by region?";
  opt_api_key := Some "sk-cli"
|}.

(** A service whose polling call raises. *)
Definition polling_error_env : Env :=
  fake_env (Some "sk-test")
    (fake_client (Failure "polling gave up") contents_by_id).

(** ** More sample services *)

(** Contents served for every id but one, whose download is refused. *)
Definition contents_but (bad : string) (fid : string) : reply bytes :=
  if String.eqb fid bad then Failure "download refused"
  else contents_by_id fid.

(** The sales run against a service that refuses the second file. *)
Definition flaky_client : Client :=
  fake_client (Answer sales_run) (contents_but "f2").

(** A run whose two files carry the same suggested name. *)
Definition duplicate_run : Run := {|
  status := succeeded;
  output_text := None;
  output := [ file_item "f1" (Some "report.csv");
              file_item "f2" (Some "report.csv") ]
|}.

(** The sales run with other elements around its files, and another
    status. *)
Definition padded_run : Run := {|
  status := expired;
  output_text := Some "Region A led sales.";
  output := [ file_item "f1" (Some "data_dictionary.json");
              text_item "a note";
              text_item "another note";
              file_item "f2" (Some "chart.png") ]
|}.

(** An environment where no path may be written. *)
Definition read_only_env : Env := {|
  OPENAI_API_KEY := Some "sk-test";
  service := fun _ => fake_client (Answer sales_run) contents_by_id;
  realpath := fun p => p;
  readable := fun _ => true;
  writable := fun _ => false
|}.

(** A disk with the workbook and an unrelated file. *)
Definition busy_disk : Disk :=
  {[ "sales.xlsx" := "workbook bytes"; "notes.txt" := "keep me" ]}.

(** ** Sample runs for names and texts *)


(** A run whose files are named outside the working directory. *)
Definition escaping_run : Run := {|
  status := succeeded;
  output_text := None;
  output := [ file_item "f7" (Some "/etc/cron.d/job");
              file_item "f8" (Some "../outside.txt") ]
|}.

(** A process working in [/home/user/work]. *)
Definition posix_env : Env := {|
  OPENAI_API_KEY := Some "sk-test";
  service := fun _ => fake_client (Answer escaping_run) contents_by_id;
  realpath := resolve_from "/home/user/work";
  readable := fun _ => true;
  writable := fun _ => true
|}.



Definition posix_disk : Disk :=
  {[ "/home/user/work/sales.xlsx" := "workbook bytes" ]}.

(** * Properties *)

(** ** Sequencing *)

Lemma bind_returns {A B} (m : M A) (k : A -> M B) d a d1 t1 :
  m d = (Returns a, d1, t1) ->
  bind m k d = (result_of (k a d1), disk_of (k a d1), t1 ++ trace_of (k a d1)).
Proof.
  intros Hm. unfold bind. rewrite Hm.
  by destruct (k a d1) as [[r d2] t2].
Qed.

Lemma bind_raises {A B} (m : M A) (k : A -> M B) d e d1 t1 :
  m d = (Raises e, d1, t1) -> bind m k d = (Raises e, d1, t1).
Proof. intros Hm. unfold bind. by rewrite Hm. Qed.

Lemma bind_assoc {A B C} (m : M A) (k : A -> M B) (h : B -> M C) d :
  bind (bind m k) h d = bind m (fun a => bind (k a) h) d.
Proof.
  unfold bind. destruct (m d) as [[[a|e] d1] t1]; [|done].
  destruct (k a d1) as [[[b|e] d2] t2]; [|done].
  destruct (h b d2) as [[r d3] t3]. by rewrite app_assoc.
Qed.

Lemma bind_ext {A B} (m : M A) (k k' : A -> M B) d :
  (forall a d1, k a d1 = k' a d1) -> bind m k d = bind m k' d.
Proof.
  intros Hk. unfold bind. destruct (m d) as [[[a|e] d1] t1]; [|done].
  by rewrite Hk.
Qed.

(** [run_analysis] is [submit] followed by [fetch_artifacts]. *)
Lemma run_analysis_split E workbook question api_key d :
  run_analysis E workbook question api_key d =
  bind (submit E workbook question api_key)
       (fun cr => fetch_artifacts E cr.1 cr.2) d.
Proof.
  unfold run_analysis, submit.
  rewrite bind_assoc. apply bind_ext; intros client d1.
  rewrite bind_assoc. apply bind_ext; intros f d2.
  rewrite bind_assoc. apply bind_ext; intros uploaded d3.
  rewrite bind_assoc. apply bind_ext; intros agent d4.
  rewrite bind_assoc. apply bind_ext; intros run d5.
  unfold bind, ret. simpl.
  by destruct (fetch_artifacts E client run d5) as [[r d6] t6].
Qed.

(** ** The download loop, one element at a time *)

Lemma download_files_skip E client item rest d :
  is_output_file item = false ->
  download_files E client (item :: rest) d = download_files E client rest d.
Proof. intros H. simpl. by rewrite H. Qed.

Lemma download_files_failure E client item rest d msg :
  is_output_file item = true ->
  on_files_content client (file_id item) = Failure msg ->
  download_files E client (item :: rest) d =
  (Raises (OpenAIError msg), d, [ev_call (files_content (file_id item))]).
Proof.
  intros H Hc. simpl. rewrite H. simpl.
  unfold bind, request. by rewrite Hc.
Qed.

Lemma download_files_unwritable E client item rest d content :
  is_output_file item = true ->
  on_files_content client (file_id item) = Answer content ->
  writable E (save_name item) = false ->
  download_files E client (item :: rest) d =
  (Raises (OSError (save_name item)), d,
   [ev_call (files_content (file_id item))]).
Proof.
  intros H Hc Hw. simpl. rewrite H. simpl.
  unfold bind, request, open_wb_write. by rewrite Hc, Hw.
Qed.

Lemma download_files_saved E client item rest d content :
  is_output_file item = true ->
  on_files_content client (file_id item) = Answer content ->
  writable E (save_name item) = true ->
  let y := download_files E client rest
             (<[realpath E (save_name item) := content]> d) in
  download_files E client (item :: rest) d =
  (result_of y, disk_of y,
   ev_call (files_content (file_id item))
     :: ev_write (save_name item) content
     :: ev_print ("Saved " +:+ save_name item)
     :: trace_of y).
Proof.
  intros H Hc Hw y. simpl. rewrite H. simpl.
  unfold bind, request, open_wb_write, print. rewrite Hc, Hw.
  subst y. by destruct (download_files _ _ _ _) as [[r d2] t2].
Qed.

(** The four ways one element can go, as a case analysis. *)
Lemma download_files_cases E client item rest d :
  (is_output_file item = false /\
   download_files E client (item :: rest) d = download_files E client rest d)
  \/ (is_output_file item = true /\
      exists msg, on_files_content client (file_id item) = Failure msg /\
      download_files E client (item :: rest) d =
      (Raises (OpenAIError msg), d,
       [ev_call (files_content (file_id item))]))
  \/ (is_output_file item = true /\
      exists content,
        on_files_content client (file_id item) = Answer content /\
        writable E (save_name item) = false /\
        download_files E client (item :: rest) d =
        (Raises (OSError (save_name item)), d,
         [ev_call (files_content (file_id item))]))
  \/ (is_output_file item = true /\
      exists content,
        on_files_content client (file_id item) = Answer content /\
        writable E (save_name item) = true /\
        let y := download_files E client rest
                   (<[realpath E (save_name item) := content]> d) in
        download_files E client (item :: rest) d =
        (result_of y, disk_of y,
         ev_call (files_content (file_id item))
           :: ev_write (save_name item) content
           :: ev_print ("Saved " +:+ save_name item)
           :: trace_of y)).
Proof.
  destruct (is_output_file item) eqn:H.
  - right.
    destruct (on_files_content client (file_id item)) as [content|msg] eqn:Hc.
    + destruct (writable E (save_name item)) eqn:Hw.
      * right; right. split; [done|]. exists content.
        split; [done|]. split; [done|].
        by apply download_files_saved.
      * right; left. split; [done|]. exists content.
        split; [done|]. split; [done|].
        eapply download_files_unwritable; eauto.
    + left. split; [done|]. exists msg. split; [done|].
      by apply download_files_failure.
  - left. split; [done|]. by apply download_files_skip.
Qed.

Lemma file_items_cons_true item rest :
  is_output_file item = true ->
  file_items (item :: rest) = item :: file_items rest.
Proof. intros H. unfold file_items. simpl. by rewrite H. Qed.

Lemma file_items_cons_false item rest :
  is_output_file item = false -> file_items (item :: rest) = file_items rest.
Proof. intros H. unfold file_items. simpl. by rewrite H. Qed.

(** Induction over the output list, with the element's four cases laid
    out; the last case leaves the equation of the saved element as [Heq]. *)
Ltac loop_induction E client items d :=
  let item := fresh "item" in
  let rest := fresh "rest" in
  let IH := fresh "IH" in
  let H := fresh "Hkind" in
  let Hc := fresh "Hserved" in
  let Hw := fresh "Hwritable" in
  let Heq := fresh "Heq" in
  revert d; induction items as [|item rest IH]; intros d;
  [ simpl
  | destruct (download_files_cases E client item rest d)
      as [(H & Heq) | [(H & ? & Hc & Heq) | [(H & ? & Hc & Hw & Heq)
         | (H & ? & Hc & Hw & Heq)]]];
    cbv zeta in Heq; rewrite Heq; clear Heq;
    [ try rewrite (file_items_cons_false _ _ H)
    | try rewrite (file_items_cons_true _ _ H)
    | try rewrite (file_items_cons_true _ _ H)
    | try rewrite (file_items_cons_true _ _ H) ] ].


(** The writes of the loop are downloads of the first [k] file elements,
    in their order, for some [k]. *)
Lemma download_files_writes_prefix E client items d :
  exists k,
    Forall2 (wrote client)
      (writes (trace_of (download_files E client items d)))
      (take k (file_items items)).
Proof.
  loop_induction E client items d.
  - exists 0. constructor.
  - apply IH.
  - exists 0. constructor.
  - exists 0. constructor.
  - destruct (IH (<[realpath E (save_name item) := x]> d)) as [k Hk].
    exists (S k). simpl. constructor; [done|]. apply Hk.
Qed.

(** When the loop returns, every file element was downloaded. *)
Lemma download_files_writes_all E client items d :
  result_of (download_files E client items d) = Returns tt ->
  Forall2 (wrote client)
    (writes (trace_of (download_files E client items d)))
    (file_items items).
Proof.
  loop_induction E client items d; simpl; intros Hret;
    [ constructor | by apply IH | done | done | ].
  constructor; [done|]. by apply IH.
Qed.



Lemma download_files_ids_all E client items d :
  result_of (download_files E client items d) = Returns tt ->
  download_ids (trace_of (download_files E client items d)) =
  map file_id (file_items items).
Proof.
  loop_induction E client items d; simpl; intros Hret;
    [ done | by apply IH | done | done | f_equal; by apply IH ].
Qed.

(** The loop opens nothing for reading, and its only requests are
    downloads. *)
Lemma download_files_reads E client items d :
  reads (trace_of (download_files E client items d)) = [].
Proof.
  loop_induction E client items d; simpl;
    [ done | apply IH | done | done | apply IH ].
Qed.

Lemma download_files_calls E client items d :
  calls (trace_of (download_files E client items d)) =
  map files_content
    (download_ids (trace_of (download_files E client items d))).
Proof.
  loop_induction E client items d; simpl;
    [ done | apply IH | done | done | f_equal; apply IH ].
Qed.

(** The disk changes by the traced writes and by nothing else. *)
Lemma download_files_disk E client items d :
  disk_of (download_files E client items d) =
  apply_writes E (writes (trace_of (download_files E client items d))) d.
Proof.
  loop_induction E client items d; simpl;
    [ done | apply IH | done | done | apply IH ].
Qed.

(** The loop never looks at the disk: outcome and trace do not depend on
    it. *)
Lemma download_files_blind E client items d d' :
  result_of (download_files E client items d) =
  result_of (download_files E client items d')
  /\ trace_of (download_files E client items d) =
     trace_of (download_files E client items d').
Proof.
  revert d d'. induction items as [|item rest IH]; intros d d'; [done|].
  destruct (download_files_cases E client item rest d)
    as [(H & Heq) | [(H & ? & Hc & Heq) | [(H & ? & Hc & Hw & Heq)
       | (H & ? & Hc & Hw & Heq)]]]; cbv zeta in Heq; rewrite Heq; clear Heq.
  - rewrite download_files_skip by done. apply IH.
  - by erewrite download_files_failure by done.
  - by erewrite download_files_unwritable by done.
  - pose proof (download_files_saved E client item rest d' x H Hc Hw) as Heq.
    cbv zeta in Heq. rewrite Heq. simpl.
    destruct (IH (<[realpath E (save_name item) := x]> d)
                 (<[realpath E (save_name item) := x]> d')) as [Hr Ht].
    split; [done|]. by rewrite Ht.
Qed.

(** The loop returns when every file element is served and may be
    written. *)
Lemma download_files_returns E client items d :
  Forall (fun item =>
            (exists content,
               on_files_content client (file_id item) = Answer content)
            /\ writable E (save_name item) = true) (file_items items) ->
  result_of (download_files E client items d) = Returns tt.
Proof.
  loop_induction E client items d; simpl; intros Hall;
    [ done | by apply IH | | | ].
  - apply Forall_cons in Hall as [[[c Hc] _] _]. congruence.
  - apply Forall_cons in Hall as [[_ Hw] _]. congruence.
  - apply Forall_cons in Hall as [_ Hrest]. by apply IH.
Qed.

(** ** Printing the text, then the loop *)

Lemma fetch_artifacts_eq E client run d :
  fetch_artifacts E client run d =
  (result_of (download_files E client (output run) d),
   disk_of (download_files E client (output run) d),
   (if truthy (output_text run)
    then [ev_print (default "" (output_text run))] else [])
   ++ trace_of (download_files E client (output run) d)).
Proof.
  unfold fetch_artifacts, bind.
  destruct (truthy (output_text run)); unfold print, ret;
    by destruct (download_files _ _ _ _) as [[r d2] t2].
Qed.

(** ** Inverting the primitive effects *)

Lemma request_inv {A} (c : call) (r : reply A) d res d1 t1 :
  request c r d = (res, d1, t1) ->
  d1 = d /\ t1 = [ev_call c]
  /\ match res with
     | Returns a => r = Answer a
     | Raises e => exists msg, r = Failure msg /\ e = OpenAIError msg
     end.
Proof. unfold request. destruct r; intros; simplify_eq; eauto. Qed.

Lemma open_rb_inv E path d res d1 t1 :
  open_rb E path d = (res, d1, t1) ->
  d1 = d
  /\ match res with
     | Returns data =>
         d !! realpath E path = Some data /\ readable E path = true
         /\ t1 = [ev_read path]
     | Raises e =>
         (d !! realpath E path = None \/ readable E path = false)
         /\ e = OSError path /\ t1 = []
     end.
Proof.
  unfold open_rb. destruct (d !! realpath E path) eqn:Hd;
    [destruct (readable E path) eqn:Hr|]; intros; simplify_eq; eauto.
Qed.

Lemma client_inv E api_key d res d1 t1 :
  (if truthy api_key then OpenAI E api_key else OpenAI E None) d
  = (res, d1, t1) ->
  d1 = d /\ t1 = []
  /\ match res with
     | Returns client =>
         exists k, client = service E k
           /\ (truthy api_key = true /\ api_key = Some k
               \/ truthy api_key = false /\ OPENAI_API_KEY E = Some k)
     | Raises e =>
         truthy api_key = false /\ OPENAI_API_KEY E = None
         /\ exists msg, e = OpenAIError msg
     end.
Proof.
  destruct api_key as [k|]; simpl.
  - destruct (negb (String.eqb k "")) eqn:Hk; simpl.
    + unfold ret. intros; simplify_eq. eauto 10.
    + destruct (OPENAI_API_KEY E) eqn:He; unfold ret, raise;
        intros; simplify_eq; eauto 10.
  - destruct (OPENAI_API_KEY E) eqn:He; unfold ret, raise;
      intros; simplify_eq; eauto 10.
Qed.

Lemma result_of_triple {A} (r : outcome A) (d : Disk) (t : list event) :
  result_of (r, d, t) = r.
Proof. reflexivity. Qed.

Lemma disk_of_triple {A} (r : outcome A) (d : Disk) (t : list event) :
  disk_of (r, d, t) = d.
Proof. reflexivity. Qed.

Lemma trace_of_triple {A} (r : outcome A) (d : Disk) (t : list event) :
  trace_of (r, d, t) = t.
Proof. reflexivity. Qed.

Ltac project := rewrite ?result_of_triple, ?disk_of_triple, ?trace_of_triple.

(** ** The steps up to the end of polling *)

(** A sequence that ended did so in its first part or in its second. *)
Lemma bind_inv {A B} (m : M A) (k : A -> M B) d r d2 t :
  bind m k d = (r, d2, t) ->
  (exists a d1 t1 t2,
     m d = (Returns a, d1, t1) /\ k a d1 = (r, d2, t2) /\ t = t1 ++ t2)
  \/ (exists e, m d = (Raises e, d2, t) /\ r = Raises e).
Proof.
  unfold bind. destruct (m d) as [[[a|e] d1] t1].
  - destruct (k a d1) as [[r2 d3] t2] eqn:Hk. intros; simplify_eq.
    left. by exists a, d1, t1, t2.
  - intros; simplify_eq. right. by exists e.
Qed.

(** [bind_step H] splits a hypothesis [H : bind m k d = _] on how [m]
    ended, and reads off what the primitive [m] did. *)
Ltac invert_step H :=
  first
    [ apply request_inv in H as (-> & -> & H)
    | apply open_rb_inv in H as (-> & H)
    | apply client_inv in H as (-> & -> & H) ].

Ltac bind_step H :=
  rewrite ?bind_assoc in H;
  let Hm := fresh "Hstep" in
  let Hr := fresh "Hres" in
  apply bind_inv in H as [(? & ? & ? & ? & Hm & H & ->) | (? & Hm & Hr)];
  [ invert_step Hm
  | lazymatch type of Hr with
    | ?r = _ => first [ discriminate Hr | subst r; invert_step Hm ]
    end ].

(** [submit] leaves the disk alone, and its trace is an initial part of
    [submit_events]. *)
Lemma submit_shape E workbook question api_key d :
  disk_of (submit E workbook question api_key d) = d
  /\ exists n data fid aid tid,
       trace_of (submit E workbook question api_key d) =
       take n (submit_events workbook data question fid aid tid).
Proof.
  destruct (submit E workbook question api_key d) as [[r d1] t1] eqn:H.
  unfold submit, start_job in H. simpl.
  bind_step H.
  2:{ split; [done|]. by exists 0, "", "", "", "". }
  bind_step H.
  2:{ destruct Hstep0 as (_ & _ & ->). split; [done|]. by exists 0, "", "", "", "". }
  destruct Hstep0 as (Hd & Hr & ->).
  bind_step H.
  2:{ split; [done|]. by eexists 2, _, "", "", "". }
  bind_step H.
  2:{ split; [done|]. by eexists 3, _, "", "", "". }
  bind_step H.
  2:{ split; [done|]. by eexists 4, _, "", "", "". }
  bind_step H.
  2:{ split; [done|]. by eexists 5, _, _, "", _. }
  bind_step H.
  2:{ split; [done|]. by eexists 6, _, _, _, _. }
  unfold ret in H. simplify_eq. split; [done|]. by eexists 6, _, _, _, _.
Qed.

(** When [submit] returns, every step succeeded and the trace is the whole
    of [submit_events]. *)
Lemma submit_returns E workbook question api_key d client run :
  result_of (submit E workbook question api_key d) = Returns (client, run) ->
  exists data uploaded agent thread,
    d !! realpath E workbook = Some data
    /\ readable E workbook = true
    /\ on_runs_create_and_poll client (id_of_thread thread)
         (id_of_agent agent) = Answer run
    /\ trace_of (submit E workbook question api_key d) =
       submit_events workbook data question (id_of_file uploaded)
         (id_of_agent agent) (id_of_thread thread).
Proof.
  destruct (submit E workbook question api_key d) as [[r d1] t1] eqn:H.
  unfold submit, start_job in H. unfold result_of, trace_of. simpl.
  intros Hr. subst r.
  bind_step H.
  bind_step H. destruct Hstep0 as (Hd & Hr & ->).
  do 5 bind_step H.
  unfold ret in H. simplify_eq. eauto 10.
Qed.

(** When [submit] raises, so does [run_analysis], with the same disk and
    the same trace: nothing is printed, downloaded or written. *)
Lemma run_analysis_stops_with_submit E workbook question api_key d e :
  result_of (submit E workbook question api_key d) = Raises e ->
  run_analysis E workbook question api_key d =
  (Raises e, d, trace_of (submit E workbook question api_key d)).
Proof.
  intros Hs. rewrite run_analysis_split.
  pose proof (submit_shape E workbook question api_key d) as [Hd _].
  destruct (submit E workbook question api_key d) as [[r d1] t1] eqn:Heq.
  unfold result_of, disk_of, trace_of in *. simpl in *. subst. by apply bind_raises.
Qed.

(** When [submit] returns, [run_analysis] goes on with [fetch_artifacts] on
    the same disk. *)
Lemma run_analysis_goes_on E workbook question api_key d client run :
  result_of (submit E workbook question api_key d) = Returns (client, run) ->
  run_analysis E workbook question api_key d =
  (result_of (fetch_artifacts E client run d),
   disk_of (fetch_artifacts E client run d),
   trace_of (submit E workbook question api_key d)
   ++ trace_of (fetch_artifacts E client run d)).
Proof.
  intros Hs. rewrite run_analysis_split.
  pose proof (submit_shape E workbook question api_key d) as [Hd _].
  destruct (submit E workbook question api_key d) as [[r d1] t1] eqn:Heq.
  unfold result_of, disk_of, trace_of in *. simpl in *. subst.
  by rewrite (bind_returns _ _ _ _ _ _ Heq).
Qed.

(** ** Reading a trace *)

Lemma in_calls c t : In (ev_call c) t <-> In c (calls t).
Proof.
  unfold calls. rewrite <- !list_elem_of_In, list_elem_of_omap. split.
  - intros H. by exists (ev_call c).
  - intros ([] & H & Heq); by simplify_eq.
Qed.

Lemma in_writes p c t : In (ev_write p c) t <-> In (p, c) (writes t).
Proof.
  unfold writes. rewrite <- !list_elem_of_In, list_elem_of_omap. split.
  - intros H. by exists (ev_write p c).
  - intros ([] & H & Heq); by simplify_eq.
Qed.

Lemma writes_app t1 t2 : writes (t1 ++ t2) = writes t1 ++ writes t2.
Proof. apply omap_app. Qed.


Lemma reads_app t1 t2 : reads (t1 ++ t2) = reads t1 ++ reads t2.
Proof. apply omap_app. Qed.

Lemma download_ids_app t1 t2 :
  download_ids (t1 ++ t2) = download_ids t1 ++ download_ids t2.
Proof. apply omap_app. Qed.

(** An initial part of [submit_events] holds no download, no write and no
    print; it opens nothing but the workbook. *)
Lemma submit_events_quiet n workbook data question fid aid tid :
  let t := take n (submit_events workbook data question fid aid tid) in
  download_ids t = [] /\ writes t = [] /\ prints t = []
  /\ (reads t = [] \/ reads t = [workbook]).
Proof.
  do 7 (destruct n as [|n]; [simpl; auto|]). simpl; auto.
Qed.

Lemma submit_events_calls n workbook data question fid aid tid c :
  In (ev_call c) (take n (submit_events workbook data question fid aid tid)) ->
  In (ev_call c) (submit_events workbook data question fid aid tid).
Proof.
  rewrite <- !list_elem_of_In. apply (subseteq_take n).
Qed.

(** ** The disk after a sequence of writes *)

Lemma lookup_apply_writes E ws (d : Disk) k :
  apply_writes E ws d !! k =
  match last_write E k ws with
  | Some c => Some c
  | None => d !! k
  end.
Proof.
  revert d. induction ws as [|w ws IH]; intros d; [done|].
  unfold apply_writes in *. simpl. rewrite IH.
  destruct (last_write E k ws); [done|].
  destruct (decide (realpath E w.1 = k)) as [->|Hne].
  - by rewrite lookup_insert_eq.
  - by rewrite lookup_insert_ne.
Qed.

(** Replaying the same writes changes nothing. *)
Lemma apply_writes_twice E ws (d : Disk) :
  apply_writes E ws (apply_writes E ws d) = apply_writes E ws d.
Proof.
  apply map_eq; intros k. rewrite !lookup_apply_writes.
  by destruct (last_write E k ws).
Qed.

Lemma last_write_none E k ws :
  Forall (fun w => realpath E w.1 <> k) ws -> last_write E k ws = None.
Proof.
  induction 1 as [|w ws Hw _ IH]; [done|].
  simpl. rewrite IH. by destruct (decide (realpath E w.1 = k)).
Qed.

Lemma last_write_some E p c ws :
  In (p, c) ws -> is_Some (last_write E (realpath E p) ws).
Proof.
  induction ws as [|w ws IH]; [done|]. intros [->|Hin]; simpl.
  - destruct (last_write E (realpath E p) ws); [by eexists|].
    rewrite decide_True by done. by eexists.
  - destruct (IH Hin) as [c' ->]. by eexists.
Qed.

(** ** [fetch_artifacts] as a whole *)

Section fetch.
Variables (E : Env) (client : Client) (run : Run) (d : Disk).

Lemma fetch_artifacts_writes :
  writes (trace_of (fetch_artifacts E client run d)) =
  writes (trace_of (download_files E client (output run) d)).
Proof.
  rewrite fetch_artifacts_eq. project. rewrite writes_app.
  by destruct (truthy (output_text run)).
Qed.

Lemma fetch_artifacts_download_ids :
  download_ids (trace_of (fetch_artifacts E client run d)) =
  download_ids (trace_of (download_files E client (output run) d)).
Proof.
  rewrite fetch_artifacts_eq. project. rewrite download_ids_app.
  by destruct (truthy (output_text run)).
Qed.


Lemma fetch_artifacts_reads :
  reads (trace_of (fetch_artifacts E client run d)) = [].
Proof.
  rewrite fetch_artifacts_eq. project.
  rewrite reads_app, download_files_reads.
  by destruct (truthy (output_text run)).
Qed.

Lemma fetch_artifacts_calls c :
  In (ev_call c) (trace_of (fetch_artifacts E client run d)) ->
  exists fid, c = files_content fid.
Proof.
  rewrite fetch_artifacts_eq. project.
  rewrite in_app_iff. intros [Hin|Hin].
  - destruct (truthy (output_text run)); simpl in Hin; [|done].
    by destruct Hin.
  - apply in_calls in Hin. rewrite download_files_calls in Hin.
    apply in_map_iff in Hin as (fid & <- & _). by exists fid.
Qed.

Lemma fetch_artifacts_disk :
  disk_of (fetch_artifacts E client run d) =
  apply_writes E (writes (trace_of (fetch_artifacts E client run d))) d.
Proof.
  rewrite fetch_artifacts_writes, fetch_artifacts_eq. project.
  apply download_files_disk.
Qed.

Lemma fetch_artifacts_result :
  result_of (fetch_artifacts E client run d) =
  result_of (download_files E client (output run) d).
Proof. by rewrite fetch_artifacts_eq. Qed.
End fetch.

(** Like the loop, [fetch_artifacts] does not look at the disk. *)
Lemma fetch_artifacts_blind E client run d d' :
  result_of (fetch_artifacts E client run d) =
  result_of (fetch_artifacts E client run d')
  /\ trace_of (fetch_artifacts E client run d) =
     trace_of (fetch_artifacts E client run d').
Proof.
  rewrite !fetch_artifacts_eq. simpl.
  destruct (download_files_blind E client (output run) d d') as [-> ->].
  done.
Qed.

(** ** [run_analysis] as a whole *)

(** A missing or unreadable workbook stops [submit] before any event. *)
Lemma submit_no_workbook E workbook question api_key d :
  d !! realpath E workbook = None \/ readable E workbook = false ->
  trace_of (submit E workbook question api_key d) = []
  /\ (truthy api_key = true \/ is_Some (OPENAI_API_KEY E) ->
      result_of (submit E workbook question api_key d)
      = Raises (OSError workbook))
  /\ (truthy api_key = false /\ OPENAI_API_KEY E = None ->
      exists msg,
        result_of (submit E workbook question api_key d)
        = Raises (OpenAIError msg)).
Proof.
  intros Hmissing.
  destruct (submit E workbook question api_key d) as [[r d1] t1] eqn:H.
  unfold submit in H. simpl.
  bind_step H.
  - bind_step H.
    + destruct Hstep0 as (Hd & Hr & _). destruct Hmissing; congruence.
    + destruct Hstep0 as (_ & -> & ->).
      split; [done|]. split; [done|].
      intros [Hk He]. destruct Hstep as (k & _ & [[Hk' _]|[_ He']]); congruence.
  - destruct Hstep as (Hk & He & msg & ->).
    split; [done|]. split; [|by exists msg].
    intros [Hk'|[k Hk']]; congruence.
Qed.

(** Every request of a run is one of [submit_events] or a download. *)
Lemma run_analysis_calls E workbook question api_key d c :
  In (ev_call c) (trace_of (run_analysis E workbook question api_key d)) ->
  (exists data fid aid tid,
     In (ev_call c) (submit_events workbook data question fid aid tid))
  \/ exists fid, c = files_content fid.
Proof.
  destruct (submit_shape E workbook question api_key d)
    as (_ & n & data & fid & aid & tid & Ht).
  destruct (result_of (submit E workbook question api_key d))
    as [[client run]|e] eqn:Hs.
  - rewrite (run_analysis_goes_on _ _ _ _ _ _ _ Hs). simpl.
    rewrite in_app_iff. intros [Hin|Hin].
    + left. exists data, fid, aid, tid. rewrite Ht in Hin.
      by apply submit_events_calls in Hin.
    + right. by apply fetch_artifacts_calls in Hin.
  - rewrite (run_analysis_stops_with_submit _ _ _ _ _ _ Hs). simpl.
    intros Hin. left. exists data, fid, aid, tid. rewrite Ht in Hin.
    by apply submit_events_calls in Hin.
Qed.

(** ** The loop on a list in two parts *)

(** Going through [pre ++ post] is going through [pre] and then, if that
    returned, through [post] on the disk it left. *)
Lemma download_files_app E client pre post d :
  download_files E client (pre ++ post) d =
  bind (download_files E client pre)
       (fun _ => download_files E client post) d.
Proof.
  revert d. induction pre as [|item pre IH]; intros d.
  - simpl. unfold bind, ret.
    by destruct (download_files E client post d) as [[r d1] t1].
  - rewrite <- app_comm_cons.
    destruct (download_files_cases E client item pre d)
      as [(H & Heq) | [(H & msg & Hc & Heq) | [(H & c & Hc & Hw & Heq)
         | (H & c & Hc & Hw & Heq)]]]; cbv zeta in Heq.
    + rewrite download_files_skip by done. rewrite IH.
      unfold bind. by rewrite Heq.
    + rewrite (download_files_failure _ _ _ _ _ _ H Hc).
      symmetry. by apply bind_raises.
    + rewrite (download_files_unwritable _ _ _ _ _ _ H Hc Hw).
      symmetry. by apply bind_raises.
    + pose proof (download_files_saved E client item (pre ++ post) d c
                    H Hc Hw) as Heq'.
      cbv zeta in Heq'. rewrite Heq', IH. unfold bind. rewrite Heq.
      destruct (download_files E client pre _) as [[[[]|e] d1] t1];
        unfold result_of, disk_of, trace_of; simpl; [|done].
      by destruct (download_files E client post d1) as [[r2 d2] t2].
Qed.

Lemma file_items_app l1 l2 :
  file_items (l1 ++ l2) = file_items l1 ++ file_items l2.
Proof. unfold file_items. apply List.filter_app. Qed.

Lemma calls_app t1 t2 : calls (t1 ++ t2) = calls t1 ++ calls t2.
Proof. apply omap_app. Qed.

Lemma last_write_app E k ws1 ws2 :
  last_write E k (ws1 ++ ws2) =
  match last_write E k ws2 with
  | Some c => Some c
  | None => last_write E k ws1
  end.
Proof.
  induction ws1 as [|w ws1 IH]; simpl.
  - by destruct (last_write E k ws2).
  - rewrite IH. by destruct (last_write E k ws2).
Qed.

(** ** The disk of a whole run *)

(** Over a whole run too, the disk changes by the traced writes only. *)
Lemma run_analysis_disk E workbook question api_key d :
  disk_of (run_analysis E workbook question api_key d) =
  apply_writes E
    (writes (trace_of (run_analysis E workbook question api_key d))) d.
Proof.
  destruct (submit_shape E workbook question api_key d)
    as (_ & n & data & fid & aid & tid & Ht).
  destruct (submit_events_quiet n workbook data question fid aid tid)
    as (_ & Hw & _ & _).
  rewrite <- Ht in Hw.
  destruct (result_of (submit E workbook question api_key d))
    as [[client run]|e] eqn:Hs.
  - rewrite (run_analysis_goes_on _ _ _ _ _ _ _ Hs). project.
    rewrite writes_app, Hw. simpl. apply fetch_artifacts_disk.
  - rewrite (run_analysis_stops_with_submit _ _ _ _ _ _ Hs). project.
    by rewrite Hw.
Qed.

(** The writes of a whole run are downloads of an initial part of the
    polled run's file elements; there is none when polling is not
    reached. *)
Lemma run_analysis_writes E workbook question api_key d :
  (exists e,
     result_of (submit E workbook question api_key d) = Raises e
     /\ writes (trace_of (run_analysis E workbook question api_key d)) = [])
  \/ (exists client run k,
        result_of (submit E workbook question api_key d)
        = Returns (client, run)
        /\ Forall2 (wrote client)
             (writes (trace_of (run_analysis E workbook question api_key d)))
             (take k (file_items (output run)))).
Proof.
  destruct (submit_shape E workbook question api_key d)
    as (_ & n & data & fid & aid & tid & Ht).
  destruct (submit_events_quiet n workbook data question fid aid tid)
    as (_ & Hw & _ & _).
  rewrite <- Ht in Hw.
  destruct (result_of (submit E workbook question api_key d))
    as [[client run]|e] eqn:Hs.
  - right.
    destruct (download_files_writes_prefix E client (output run) d)
      as [k Hk].
    exists client, run, k. split; [done|].
    rewrite (run_analysis_goes_on _ _ _ _ _ _ _ Hs). project.
    by rewrite writes_app, Hw, fetch_artifacts_writes.
  - left. exists e. split; [done|].
    rewrite (run_analysis_stops_with_submit _ _ _ _ _ _ Hs). project.
    done.
Qed.

(** ** How the loop can fail, and how far it gets *)


(** A file element is reached and saved when every file element before it
    is served and may be written, and so is it; the loop then goes on
    with what follows. *)
Lemma download_files_reaches E client pre item post d content :
  is_output_file item = true ->
  Forall (fun earlier =>
            (exists c,
               on_files_content client (file_id earlier) = Answer c)
            /\ writable E (save_name earlier) = true) (file_items pre) ->
  on_files_content client (file_id item) = Answer content ->
  writable E (save_name item) = true ->
  exists d1,
    download_files E client (pre ++ item :: post) d =
    (result_of (download_files E client post d1),
     disk_of (download_files E client post d1),
     trace_of (download_files E client pre d)
     ++ ev_call (files_content (file_id item))
        :: ev_write (save_name item) content
        :: ev_print ("Saved " +:+ save_name item)
        :: trace_of (download_files E client post d1)).
Proof.
  intros Hkind Hpre Hserved Hwritable.
  pose proof (download_files_returns E client pre d Hpre) as Hret.
  rewrite download_files_app.
  destruct (download_files E client pre d) as [[r d0] t0] eqn:Hd.
  revert Hret. project. intros ->.
  rewrite (bind_returns _ _ _ _ _ _ Hd).
  pose proof (download_files_saved E client item post d0 content
                Hkind Hserved Hwritable) as Heq.
  cbv zeta in Heq. rewrite Heq. project.
  by exists (<[realpath E (save_name item) := content]> d0).
Qed.

(** ** Names and directories *)

Lemma strip_prefix_app pre s : strip_prefix pre (pre +:+ s) = Some s.
Proof.
  induction pre as [|a pre IH]; [done|].
  change (strip_prefix (String a pre) (String a (pre +:+ s)) = Some s).
  simpl. by rewrite Ascii.eqb_refl.
Qed.

Lemma append_assoc (a b c : string) : (a +:+ b) +:+ c = a +:+ (b +:+ c).
Proof.
  induction a as [|x a IH]; [done|].
  change (String x ((a +:+ b) +:+ c) = String x (a +:+ (b +:+ c))).
  by rewrite IH.
Qed.

Lemma plain_name_is_relative s :
  is_plain_name s = true -> is_absolute s = false.
Proof.
  unfold is_plain_name. destruct s as [|c s]; [done|]. simpl.
  destruct (is_slash c); [done|done].
Qed.

(** A plain name is resolved to a file of the working directory itself. *)
Lemma plain_name_in_directory cwd s :
  is_plain_name s = true -> in_directory cwd (resolve_from cwd s) = true.
Proof.
  intros Hplain. unfold resolve_from, in_directory.
  rewrite (plain_name_is_relative _ Hplain).
  by rewrite <- append_assoc, strip_prefix_app.
Qed.

(** * The claims *)

(** ** Job failure *)




(** ** Missing workbook *)

(** C3 (counterexample).  With no credential in the arguments or in the
    environment, a missing workbook is never opened: the client constructor
    raises first, and its error is not the one [open] would raise. *)
Lemma missing_workbook_without_credential :
  let x := run_analysis no_key_env "missing.xlsx" DEFAULT_QUESTION None
             sales_disk in
  sales_disk !! realpath no_key_env "missing.xlsx" = None
  /\ result_of x = Raises missing_credential
  /\ result_of x <> Raises (OSError "missing.xlsx").
Proof. cbv zeta. split; [done|]. split; [by vm_compute|]. by vm_compute. Qed.

(** C3 (as amended).  When the workbook does not exist or cannot be read,
    the run ends with an empty trace, so before any request, and with the
    disk as it was.  Its error is the [OSError] of opening the workbook
    whenever a credential is at hand (a non-empty [api_key] argument or the
    environment variable); without one it is the constructor's error. *)
Theorem missing_workbook_stops_before_any_call
    E workbook question api_key d :
  d !! realpath E workbook = None \/ readable E workbook = false ->
  trace_of (run_analysis E workbook question api_key d) = []
  /\ calls (trace_of (run_analysis E workbook question api_key d)) = []
  /\ disk_of (run_analysis E workbook question api_key d) = d
  /\ (truthy api_key = true \/ is_Some (OPENAI_API_KEY E) ->
      result_of (run_analysis E workbook question api_key d)
      = Raises (OSError workbook))
  /\ (truthy api_key = false /\ OPENAI_API_KEY E = None ->
      exists msg,
        result_of (run_analysis E workbook question api_key d)
        = Raises (OpenAIError msg)).
Proof.
  intros Hmissing.
  destruct (submit_no_workbook E workbook question api_key d Hmissing)
    as (Ht & Hos & Hsdk).
  assert (exists e,
            result_of (submit E workbook question api_key d) = Raises e)
    as [e He].
  { destruct (truthy api_key) eqn:Hk.
    - eexists. apply Hos. by left.
    - destruct (OPENAI_API_KEY E) eqn:Henv.
      + eexists. apply Hos. right. by eexists.
      + destruct Hsdk as [msg Hmsg]; [done|]. by eexists. }
  rewrite (run_analysis_stops_with_submit _ _ _ _ _ _ He), Ht.
  project.
  split; [done|]. split; [done|]. split; [done|]. split.
  - intros Hcred. rewrite (Hos Hcred) in He. by simplify_eq.
  - intros Hnone. destruct (Hsdk Hnone) as [msg Hmsg].
    rewrite Hmsg in He. simplify_eq. by exists msg.
Qed.

Lemma missing_workbook_stops_before_any_call_witness :
  (sales_disk !! realpath sales_env "missing.xlsx" = None
   \/ readable sales_env "missing.xlsx" = false)
  /\ trace_of (run_analysis sales_env "missing.xlsx" DEFAULT_QUESTION None
                 sales_disk) = []
  /\ result_of (run_analysis sales_env "missing.xlsx" DEFAULT_QUESTION None
                  sales_disk) = Raises (OSError "missing.xlsx").
Proof.
  assert (sales_disk !! realpath sales_env "missing.xlsx" = None
          \/ readable sales_env "missing.xlsx" = false) as Hmissing
    by (left; reflexivity).
  split; [exact Hmissing|].
  destruct (missing_workbook_stops_before_any_call sales_env "missing.xlsx"
              DEFAULT_QUESTION None sales_disk Hmissing)
    as (Ht & _ & _ & Hos & _).
  split; [exact Ht|]. apply Hos. right. by eexists.
Defined.

(** ** Downloaded files *)




(** C5 (failing input).  A process working in [/home/user/work] runs the
    script on [sales.xlsx]; the remote job names its files
    [/etc/cron.d/job] and [../outside.txt].  The run returns, and both
    files are written where those names lead, outside the working
    directory: the only file of that directory on the disk is still the
    workbook. *)
Lemma artifact_written_outside_the_working_directory :
  let x := run_analysis posix_env "sales.xlsx" DEFAULT_QUESTION None
             posix_disk in
  result_of x = Returns tt
  /\ writes (trace_of x) =
     [ ("/etc/cron.d/job", "content of f7");
       ("../outside.txt", "content of f8") ]
  /\ disk_of x !! "/etc/cron.d/job" = Some "content of f7"
  /\ in_directory "/home/user/work" "/etc/cron.d/job" = false
  /\ disk_of x !! "/home/user/work/../outside.txt" = Some "content of f8"
  /\ in_directory "/home/user/work" "/home/user/work/../outside.txt" = false
  /\ forall k,
       is_Some (disk_of x !! k) ->
       in_directory "/home/user/work" k = true ->
       k = "/home/user/work/sales.xlsx".
Proof.
  cbv zeta.
  assert (disk_of (run_analysis posix_env "sales.xlsx" DEFAULT_QUESTION None
                     posix_disk)
          = <["/home/user/work/../outside.txt" := "content of f8"]>
              (<["/etc/cron.d/job" := "content of f7"]> posix_disk))
    as Hdisk by (vm_compute; reflexivity).
  split; [by vm_compute|]. split; [by vm_compute|].
  split; [by vm_compute|]. split; [by vm_compute|].
  split; [by vm_compute|]. split; [by vm_compute|].
  intros k [v Hv] Hin. rewrite Hdisk in Hv.
  apply lookup_insert_Some in Hv as [[<- _]|[_ Hv]]; [by vm_compute in Hin|].
  apply lookup_insert_Some in Hv as [[<- _]|[_ Hv]]; [by vm_compute in Hin|].
  unfold posix_disk in Hv. by apply lookup_singleton_Some in Hv as [<- _].
Qed.

(** C6.  Fetching the artifacts of the same run a second time, on the disk
    the first fetch left, ends the same way, makes the same writes, and
    leaves that disk as it is: the same files with the same contents. *)
Theorem fetch_artifacts_twice E client run d :
  let once := fetch_artifacts E client run d in
  let twice := fetch_artifacts E client run (disk_of once) in
  disk_of twice = disk_of once
  /\ result_of twice = result_of once
  /\ writes (trace_of twice) = writes (trace_of once).
Proof.
  intros once twice. subst once twice.
  destruct (fetch_artifacts_blind E client run
              (disk_of (fetch_artifacts E client run d)) d) as [Hr Ht].
  split; [|split; [done|by rewrite Ht]].
  rewrite (fetch_artifacts_disk E client run
             (disk_of (fetch_artifacts E client run d))).
  rewrite Ht, (fetch_artifacts_disk E client run d).
  apply apply_writes_twice.
Qed.

(** ** Starting the job *)

(** C7.  When the service accepts the three requests, [start_job] makes
    exactly these, in this order: one thread creation; one message on that
    thread, with role [user], the question as its one [input_text] part and
    the uploaded file's id as its one attachment; one run on that thread
    for the given agent.  It gives back the polled run and leaves the disk
    alone. *)
Theorem start_job_steps client agent question uploaded d thread run :
  on_threads_create client = Answer thread ->
  on_messages_create client (id_of_thread thread) "user"
    [ {| part_type := "input_text"; part_text := question |} ]
    [ {| attached_file_id := id_of_file uploaded |} ] = Answer tt ->
  on_runs_create_and_poll client (id_of_thread thread) (id_of_agent agent)
  = Answer run ->
  start_job client agent question uploaded d =
  (Returns run, d,
   [ ev_call threads_create;
     ev_call (messages_create (id_of_thread thread) "user"
                [ {| part_type := "input_text"; part_text := question |} ]
                [ {| attached_file_id := id_of_file uploaded |} ]);
     ev_call (runs_create_and_poll (id_of_thread thread)
                (id_of_agent agent)) ]).
Proof.
  intros Ht Hm Hr. unfold start_job, bind, request.
  by rewrite Ht, Hm, Hr.
Qed.

Lemma start_job_steps_witness :
  start_job (service sales_env "sk-test") {| id_of_agent := "agent-1" |}
    "What were total sales by region?" {| id_of_file := "file-in" |}
    sales_disk =
  (Returns sales_run, sales_disk,
   start_job_events "What were total sales by region?" "file-in" "agent-1"
     "thread-1").
Proof.
  apply (start_job_steps (service sales_env "sk-test")
           {| id_of_agent := "agent-1" |}
           "What were total sales by region?" {| id_of_file := "file-in" |}
           sales_disk {| id_of_thread := "thread-1" |} sales_run);
    reflexivity.
Defined.

(** ** The workbook *)

(** C8 (counterexample).  The remote job names its one file like the
    workbook: the download is written over the workbook. *)
Lemma workbook_overwritten_by_artifact :
  let x := run_analysis clobber_env "sales.xlsx" DEFAULT_QUESTION None
             sales_disk in
  sales_disk !! realpath clobber_env "sales.xlsx" = Some "workbook bytes"
  /\ result_of x = Returns tt
  /\ In (ev_write "sales.xlsx" "content of f9") (trace_of x)
  /\ disk_of x !! realpath clobber_env "sales.xlsx" = Some "content of f9".
Proof.
  cbv zeta. split; [done|]. split; [by vm_compute|].
  split; [vm_compute; tauto|]. by vm_compute.
Qed.

(** C8 (as amended).  A run opens for reading the workbook and nothing
    else, at most once.  Its writes are the downloads of file elements of
    the polled run, so when none of those has a save name that denotes the
    workbook's file, no write goes to that file and it holds at the end
    what it held at the start. *)
Theorem workbook_kept_unless_named_by_artifact
    E workbook question api_key d :
  (forall client run item,
     result_of (submit E workbook question api_key d)
     = Returns (client, run) ->
     In item (file_items (output run)) ->
     realpath E (save_name item) <> realpath E workbook) ->
  (reads (trace_of (run_analysis E workbook question api_key d)) = []
   \/ reads (trace_of (run_analysis E workbook question api_key d))
      = [workbook])
  /\ Forall (fun w => realpath E w.1 <> realpath E workbook)
       (writes (trace_of (run_analysis E workbook question api_key d)))
  /\ disk_of (run_analysis E workbook question api_key d)
       !! realpath E workbook
     = d !! realpath E workbook.
Proof.
  intros Hnames.
  destruct (submit_shape E workbook question api_key d)
    as (_ & n & data & fid & aid & tid & Ht).
  destruct (submit_events_quiet n workbook data question fid aid tid)
    as (_ & Hw & _ & Hreads).
  rewrite <- Ht in Hw, Hreads.
  destruct (result_of (submit E workbook question api_key d))
    as [[client run]|e] eqn:Hs.
  - rewrite (run_analysis_goes_on _ _ _ _ _ _ _ Hs). project.
    rewrite reads_app, writes_app, Hw, fetch_artifacts_reads, app_nil_r.
    simpl.
    assert (Forall (fun w => realpath E w.1 <> realpath E workbook)
              (writes (trace_of (fetch_artifacts E client run d))))
      as Hfar.
    { rewrite fetch_artifacts_writes.
      destruct (download_files_writes_prefix E client (output run) d)
        as [k Hk].
      eapply Forall2_Forall_l; [exact Hk|].
      apply Forall_forall. intros item Hin w [Hname _].
      rewrite Hname. apply (Hnames client run item); [done|].
      eapply list_elem_of_In, subseteq_take, Hin. }
    split; [done|]. split; [done|].
    rewrite fetch_artifacts_disk, lookup_apply_writes.
    by rewrite (last_write_none _ _ _ Hfar).
  - rewrite (run_analysis_stops_with_submit _ _ _ _ _ _ Hs). project.
    rewrite Hw. split; [done|]. split; [constructor|done].
Qed.

Lemma workbook_kept_unless_named_by_artifact_witness :
  disk_of (run_analysis sales_env "sales.xlsx" DEFAULT_QUESTION None
             sales_disk) !! realpath sales_env "sales.xlsx"
  = Some "workbook bytes".
Proof.
  apply (workbook_kept_unless_named_by_artifact sales_env "sales.xlsx"
           DEFAULT_QUESTION None sales_disk).
  intros client run item Hs Hin.
  vm_compute in Hs. injection Hs as <- <-.
  vm_compute in Hin. destruct Hin as [<-|[<-|[]]]; vm_compute; discriminate.
Defined.

(** ** Fixed arguments *)

(** C9.  The text of the message a run of [main] sends is the value of
    [--question] when the option is given, and otherwise the default
    prompt. *)
Theorem main_sends_the_question E cl d tid role content attachments :
  In (ev_call (messages_create tid role content attachments))
    (trace_of (main E cl d)) ->
  content =
  [ {| part_type := "input_text";
       part_text :=
         match opt_question cl with
         | Some supplied => supplied
         | None => "What insights can you derive from this workbook?"
         end |} ].
Proof.
  unfold main, parse_args. simpl. intros Hin.
  apply run_analysis_calls in Hin
    as [(data & fid & aid & tid' & Hin)|[fid Hfid]]; [|done].
  unfold submit_events in Hin. simpl in Hin.
  destruct Hin as [H|[H|[H|[H|[H|[H|[]]]]]]]; try discriminate H.
  injection H as <- <- <- <-. by destruct (opt_question cl).
Qed.

Lemma main_sends_the_question_witness :
  In (ev_call (messages_create "thread-1" "user"
                 [ {| part_type := "input_text";
                      part_text := DEFAULT_QUESTION |} ]
                 [ {| attached_file_id := "file-in" |} ]))
    (trace_of (main sales_env plain_command_line sales_disk))
  /\ [ {| part_type := "input_text"; part_text := DEFAULT_QUESTION |} ] =
     [ {| part_type := "input_text";
          part_text := "What insights can you derive from this workbook?" |} ]
  /\ In (ev_call (messages_create "thread-1" "user"
                    [ {| part_type := "input_text";
                         part_text := "What were total sales by region?" |} ]
                    [ {| attached_file_id := "file-in" |} ]))
       (trace_of (main sales_env asking_command_line sales_disk)).
Proof.
  assert (In (ev_call (messages_create "thread-1" "user"
                 [ {| part_type := "input_text";
                      part_text := DEFAULT_QUESTION |} ]
                 [ {| attached_file_id := "file-in" |} ]))
            (trace_of (main sales_env plain_command_line sales_disk)))
    as Hin by (vm_compute; tauto).
  split; [exact Hin|]. split.
  - exact (main_sends_the_question sales_env plain_command_line sales_disk
             _ _ _ _ Hin).
  - vm_compute; tauto.
Defined.

(** C10.  Whatever the environment, the workbook, the question and the key
    of two runs, the agent definitions they create are the same one: the
    name, the model, [ANALYST_INSTRUCTIONS] as they are, and the code
    interpreter as the only tool. *)
Theorem agent_definition_is_fixed
    E1 workbook1 question1 api_key1 d1 E2 workbook2 question2 api_key2 d2
    p1 p2 :
  In (ev_call (agents_create p1))
    (trace_of (run_analysis E1 workbook1 question1 api_key1 d1)) ->
  In (ev_call (agents_create p2))
    (trace_of (run_analysis E2 workbook2 question2 api_key2 d2)) ->
  p1 = p2
  /\ p1 = {| name := "Spreadsheet Analyst";
             model := "gpt-4.1";
             instructions := ANALYST_INSTRUCTIONS;
             tools := [ {| tool_type := "code_interpreter" |} ] |}.
Proof.
  assert (forall E workbook question api_key d p,
            In (ev_call (agents_create p))
              (trace_of (run_analysis E workbook question api_key d)) ->
            p = analyst_params) as Hfixed.
  { intros E workbook question api_key d p Hin.
    apply run_analysis_calls in Hin
      as [(data & fid & aid & tid & Hin)|[fid Hfid]]; [|done].
    unfold submit_events in Hin. simpl in Hin.
    destruct Hin as [H|[H|[H|[H|[H|[H|[]]]]]]]; try discriminate H.
    by injection H as <-. }
  intros H1 H2. apply Hfixed in H1, H2. by subst.
Qed.

Lemma agent_definition_is_fixed_witness :
  In (ev_call (agents_create analyst_params))
    (trace_of (run_analysis sales_env "sales.xlsx"
                 "What were total sales by region?" None sales_disk))
  /\ In (ev_call (agents_create analyst_params))
       (trace_of (run_analysis failed_env "budget.xlsx" DEFAULT_QUESTION
                    (Some "sk-other") budget_disk))
  /\ analyst_params =
     {| name := "Spreadsheet Analyst";
        model := "gpt-4.1";
        instructions := ANALYST_INSTRUCTIONS;
        tools := [ {| tool_type := "code_interpreter" |} ] |}.
Proof.
  assert (In (ev_call (agents_create analyst_params))
            (trace_of (run_analysis sales_env "sales.xlsx"
                         "What were total sales by region?" None
                         sales_disk))) as H1 by (vm_compute; tauto).
  assert (In (ev_call (agents_create analyst_params))
            (trace_of (run_analysis failed_env "budget.xlsx"
                         DEFAULT_QUESTION (Some "sk-other") budget_disk)))
    as H2 by (vm_compute; tauto).
  split; [exact H1|]. split; [exact H2|].
  exact (proj2 (agent_definition_is_fixed _ _ _ _ _ _ _ _ _ _ _ _ H1 H2)).
Defined.

(** ** Errors while polling *)

(** Whatever ends [submit] with an exception, an error raised by the
    polling call included, ends the run with it: see
    [run_analysis_stops_with_submit].  Here the polling call raises. *)
Example polling_error_ends_the_run :
  let x := run_analysis polling_error_env "sales.xlsx" DEFAULT_QUESTION None
             sales_disk in
  result_of x = Raises (OpenAIError "polling gave up")
  /\ download_ids (trace_of x) = []
  /\ writes (trace_of x) = []
  /\ disk_of x = sales_disk.
Proof. cbv zeta. repeat split; by vm_compute. Qed.

(** * Further properties of the script *)

(** ** A download that fails part-way *)

(** X1.  When the download of a file element is refused while every file
    element before it was served and written, the fetch raises the SDK's
    error for that element; the earlier files were written, in order, and
    are on the disk; the refused element was requested last, and nothing
    after it is requested. *)
Theorem failed_download_keeps_earlier_files
    E client run d pre item post msg :
  output run = pre ++ item :: post ->
  is_output_file item = true ->
  on_files_content client (file_id item) = Failure msg ->
  Forall (fun earlier =>
            (exists content,
               on_files_content client (file_id earlier) = Answer content)
            /\ writable E (save_name earlier) = true) (file_items pre) ->
  result_of (fetch_artifacts E client run d) = Raises (OpenAIError msg)
  /\ Forall2 (wrote client)
       (writes (trace_of (fetch_artifacts E client run d)))
       (file_items pre)
  /\ download_ids (trace_of (fetch_artifacts E client run d)) =
     map file_id (file_items pre) ++ [file_id item]
  /\ Forall (fun earlier =>
               is_Some (disk_of (fetch_artifacts E client run d)
                          !! realpath E (save_name earlier)))
       (file_items pre).
Proof.
  intros Hout Hkind Hrefused Hserved.
  pose proof (download_files_returns E client pre d Hserved) as Hret.
  assert (download_files E client (output run) d =
          (Raises (OpenAIError msg),
           disk_of (download_files E client pre d),
           trace_of (download_files E client pre d)
           ++ [ev_call (files_content (file_id item))])) as Hloop.
  { rewrite Hout, download_files_app.
    destruct (download_files E client pre d) as [[r d1] t1] eqn:Hpre.
    unfold result_of in Hret. simpl in Hret. subst r.
    rewrite (bind_returns _ _ _ _ _ _ Hpre).
    rewrite (download_files_failure _ _ _ _ _ _ Hkind Hrefused).
    by project. }
  assert (Forall2 (wrote client)
            (writes (trace_of (fetch_artifacts E client run d)))
            (file_items pre)) as Hwrites.
  { rewrite fetch_artifacts_writes, Hloop. project.
    rewrite writes_app. simpl. rewrite app_nil_r.
    by apply download_files_writes_all. }
  split; [by rewrite fetch_artifacts_result, Hloop|].
  split; [done|]. split.
  - rewrite fetch_artifacts_download_ids, Hloop. project.
    rewrite download_ids_app. simpl.
    by rewrite (download_files_ids_all _ _ _ _ Hret).
  - rewrite fetch_artifacts_disk. apply Forall_forall. intros earlier Hin.
    apply list_elem_of_lookup in Hin as [i Hi].
    destruct (Forall2_lookup_r _ _ _ _ _ Hwrites Hi)
      as ([p c] & Hp & Hname & _).
    simpl in Hname. subst p. rewrite lookup_apply_writes.
    assert (In (save_name earlier, c)
              (writes (trace_of (fetch_artifacts E client run d))))
      as Hw by (apply list_elem_of_In, list_elem_of_lookup; by exists i).
    destruct (last_write_some E _ _ _ Hw) as [c' ->]. by eexists.
Qed.

Lemma failed_download_keeps_earlier_files_witness :
  result_of (fetch_artifacts sales_env flaky_client sales_run sales_disk)
  = Raises (OpenAIError "download refused")
  /\ download_ids
       (trace_of (fetch_artifacts sales_env flaky_client sales_run
                    sales_disk)) = ["f1"; "f2"]
  /\ disk_of (fetch_artifacts sales_env flaky_client sales_run sales_disk)
       !! "data_dictionary.json" = Some "content of f1"
  /\ disk_of (fetch_artifacts sales_env flaky_client sales_run sales_disk)
       !! "chart.png" = None.
Proof.
  destruct (failed_download_keeps_earlier_files sales_env flaky_client
              sales_run sales_disk
              [ text_item "Region A led sales.";
                file_item "f1" (Some "data_dictionary.json") ]
              (file_item "f2" (Some "chart.png")) [] "download refused")
    as (Hres & _ & Hids & _).
  - reflexivity.
  - reflexivity.
  - reflexivity.
  - repeat constructor. by exists "content of f1".
  - split; [exact Hres|]. split; [exact Hids|]. split; reflexivity.
Defined.

(** ** Two files under one name *)

(** X2.  In a fetch that returns, the file a save name denotes holds the
    content of the last file element saved under it: an element's content
    is on the disk at the end when no later file element has a save name
    that denotes the same file, whatever came before it. *)
Theorem later_file_overwrites_earlier E client run d pre item post :
  output run = pre ++ item :: post ->
  is_output_file item = true ->
  Forall (fun later =>
            realpath E (save_name later) <> realpath E (save_name item))
    (file_items post) ->
  result_of (fetch_artifacts E client run d) = Returns tt ->
  exists content,
    on_files_content client (file_id item) = Answer content
    /\ disk_of (fetch_artifacts E client run d)
         !! realpath E (save_name item) = Some content.
Proof.
  intros Hout Hkind Hlater Hret.
  rewrite fetch_artifacts_result in Hret.
  apply download_files_writes_all in Hret.
  rewrite <- fetch_artifacts_writes in Hret.
  rewrite Hout, file_items_app, (file_items_cons_true _ _ Hkind) in Hret.
  apply Forall2_app_inv_r in Hret as (ws1 & ws2 & _ & Hrest & Hws).
  apply Forall2_cons_inv_r in Hrest as ([p c] & ws3 & [Hname Hc] & Hpost & ->).
  simpl in Hname, Hc. subst p.
  exists c. split; [done|].
  rewrite fetch_artifacts_disk, Hws, lookup_apply_writes, last_write_app.
  simpl. rewrite last_write_none.
  - by rewrite decide_True.
  - eapply Forall2_Forall_l; [exact Hpost|].
    eapply Forall_impl; [exact Hlater|].
    intros later Hne w [Hw _]. by rewrite Hw.
Qed.

Lemma later_file_overwrites_earlier_witness :
  disk_of (fetch_artifacts sales_env (service sales_env "sk-test")
             duplicate_run sales_disk) !! "report.csv"
  = Some "content of f2".
Proof.
  destruct (later_file_overwrites_earlier sales_env
              (service sales_env "sk-test") duplicate_run sales_disk
              [ file_item "f1" (Some "report.csv") ]
              (file_item "f2" (Some "report.csv")) [])
    as (content & Hc & Hdisk).
  - reflexivity.
  - reflexivity.
  - constructor.
  - reflexivity.
  - injection Hc as <-. exact Hdisk.
Defined.

(** ** What a run leaves alone *)

(** X3.  A run changes no file but those its downloads are saved to: a
    file that no file element of the polled run denotes by its save name
    holds at the end what it held at the start (and is still absent if it
    was absent). *)
Theorem run_leaves_other_files_alone E workbook question api_key d k :
  (forall client run item,
     result_of (submit E workbook question api_key d)
     = Returns (client, run) ->
     In item (file_items (output run)) ->
     realpath E (save_name item) <> k) ->
  disk_of (run_analysis E workbook question api_key d) !! k = d !! k.
Proof.
  intros Hnames.
  rewrite run_analysis_disk, lookup_apply_writes.
  rewrite last_write_none; [done|].
  destruct (run_analysis_writes E workbook question api_key d)
    as [(e & _ & ->)|(client & run & n & Hs & Hw)]; [constructor|].
  eapply Forall2_Forall_l; [exact Hw|].
  apply Forall_forall. intros item Hin w [Hname _].
  rewrite Hname. apply (Hnames client run item); [done|].
  eapply list_elem_of_In, subseteq_take, Hin.
Qed.

Lemma run_leaves_other_files_alone_witness :
  disk_of (run_analysis sales_env "sales.xlsx" DEFAULT_QUESTION None
             busy_disk) !! "notes.txt" = Some "keep me".
Proof.
  apply (run_leaves_other_files_alone sales_env "sales.xlsx"
           DEFAULT_QUESTION None busy_disk "notes.txt").
  intros client run item Hs Hin.
  vm_compute in Hs. injection Hs as <- <-.
  vm_compute in Hin. destruct Hin as [<-|[<-|[]]]; vm_compute; discriminate.
Defined.

(** X4.  A run never removes a file: whatever was on the disk at the start
    is on the disk at the end, overwritten at most, however the run
    ends. *)
Theorem run_never_removes_a_file E workbook question api_key d k :
  is_Some (d !! k) ->
  is_Some (disk_of (run_analysis E workbook question api_key d) !! k).
Proof.
  intros Hk. rewrite run_analysis_disk, lookup_apply_writes.
  destruct (last_write E k _); [by eexists|done].
Qed.

Lemma run_never_removes_a_file_witness :
  is_Some (disk_of (run_analysis clobber_env "sales.xlsx" DEFAULT_QUESTION
                      None busy_disk) !! "sales.xlsx")
  /\ is_Some (disk_of (run_analysis clobber_env "sales.xlsx"
                         DEFAULT_QUESTION None busy_disk) !! "notes.txt").
Proof.
  split.
  - apply (run_never_removes_a_file clobber_env "sales.xlsx"
             DEFAULT_QUESTION None busy_disk "sales.xlsx").
    by eexists.
  - apply (run_never_removes_a_file clobber_env "sales.xlsx"
             DEFAULT_QUESTION None busy_disk "notes.txt").
    by eexists.
Defined.

(** ** The requests of a run that returns *)

(** X5.  A run that returns made these requests and no other, in this
    order: one upload of what the workbook held, for purpose
    [assistants]; one agent creation; one thread creation; one message;
    one run, polled; then one download per file element of the polled
    run's output, in the list's order and with repetitions. *)
Theorem requests_of_a_run_that_returns E workbook question api_key d :
  result_of (run_analysis E workbook question api_key d) = Returns tt ->
  exists client run data fid aid tid,
    result_of (submit E workbook question api_key d)
    = Returns (client, run)
    /\ d !! realpath E workbook = Some data
    /\ calls (trace_of (run_analysis E workbook question api_key d)) =
       [ files_create data "assistants";
         agents_create analyst_params;
         threads_create;
         messages_create tid "user"
           [ {| part_type := "input_text"; part_text := question |} ]
           [ {| attached_file_id := fid |} ];
         runs_create_and_poll tid aid ]
       ++ map files_content (map file_id (file_items (output run))).
Proof.
  intros Hret.
  destruct (result_of (submit E workbook question api_key d))
    as [[client run]|e] eqn:Hs.
  - destruct (submit_returns _ _ _ _ _ _ _ Hs)
      as (data & uploaded & agent & thread & Hd & _ & _ & Ht).
    rewrite (run_analysis_goes_on _ _ _ _ _ _ _ Hs) in Hret |- *.
    revert Hret. project. intros Hret.
    exists client, run, data, (id_of_file uploaded), (id_of_agent agent),
      (id_of_thread thread).
    split; [done|]. split; [done|].
    rewrite calls_app, Ht. f_equal.
    rewrite fetch_artifacts_result in Hret.
    rewrite fetch_artifacts_eq. project. rewrite calls_app.
    rewrite download_files_calls, (download_files_ids_all _ _ _ _ Hret).
    by destruct (truthy (output_text run)).
  - by rewrite (run_analysis_stops_with_submit _ _ _ _ _ _ Hs) in Hret.
Qed.

Lemma requests_of_a_run_that_returns_witness :
  result_of (run_analysis sales_env "sales.xlsx" DEFAULT_QUESTION None
               sales_disk) = Returns tt
  /\ length (calls (trace_of (run_analysis sales_env "sales.xlsx"
                                DEFAULT_QUESTION None sales_disk))) = 7.
Proof.
  assert (result_of (run_analysis sales_env "sales.xlsx" DEFAULT_QUESTION
                       None sales_disk) = Returns tt) as Hret
    by (vm_compute; reflexivity).
  split; [exact Hret|].
  destruct (requests_of_a_run_that_returns sales_env "sales.xlsx"
              DEFAULT_QUESTION None sales_disk Hret)
    as (client & run & data & fid & aid & tid & Hs & _ & ->).
  vm_compute in Hs. injection Hs as <- <-. reflexivity.
Defined.

(** ** The credential *)

(** X6.  An [api_key] argument that is absent or empty counts for nothing:
    the run is the one that passing the environment's key would give. *)
Theorem absent_key_is_the_environment_key
    E workbook question api_key d k :
  truthy api_key = false ->
  OPENAI_API_KEY E = Some k ->
  run_analysis E workbook question api_key d =
  run_analysis E workbook question (Some k) d.
Proof.
  intros Hkey Henv. unfold run_analysis. rewrite Hkey.
  assert ((if truthy (Some k) then OpenAI E (Some k) else OpenAI E None)
          = OpenAI E None) as ->; [|done].
  destruct (truthy (Some k)); unfold OpenAI; by rewrite ?Henv.
Qed.

Lemma absent_key_is_the_environment_key_witness :
  run_analysis sales_env "sales.xlsx" DEFAULT_QUESTION (Some "") sales_disk
  = run_analysis sales_env "sales.xlsx" DEFAULT_QUESTION (Some "sk-test")
      sales_disk.
Proof.
  apply (absent_key_is_the_environment_key sales_env "sales.xlsx"
           DEFAULT_QUESTION (Some "") sales_disk "sk-test"); reflexivity.
Defined.

(** X7.  With no [--api-key] (or an empty one) and no key in the
    environment, [main] ends with the constructor's error before anything
    else: the workbook is not opened, no request is made, nothing is
    printed or written, whatever the workbook and the question. *)
Theorem main_without_credential E cl d :
  truthy (opt_api_key cl) = false ->
  OPENAI_API_KEY E = None ->
  main E cl d = (Raises missing_credential, d, []).
Proof.
  intros Hkey Henv. unfold main, parse_args, run_analysis. simpl.
  apply bind_raises. rewrite Hkey. unfold OpenAI. by rewrite Henv.
Qed.

Lemma main_without_credential_witness :
  main no_key_env plain_command_line sales_disk
  = (Raises missing_credential, sales_disk, []).
Proof.
  apply (main_without_credential no_key_env plain_command_line sales_disk);
    reflexivity.
Defined.

(** ** What the fetch depends on *)

(** Elements of another type can be dropped from the list beforehand. *)
Lemma download_files_file_items E client items d :
  download_files E client items d =
  download_files E client (file_items items) d.
Proof.
  revert d. induction items as [|item rest IH]; intros d; [done|].
  destruct (download_files_cases E client item rest d)
    as [(H & Heq) | [(H & msg & Hc & Heq) | [(H & c & Hc & Hw & Heq)
       | (H & c & Hc & Hw & Heq)]]]; cbv zeta in Heq; rewrite Heq.
  - rewrite (file_items_cons_false _ _ H). apply IH.
  - rewrite (file_items_cons_true _ _ H).
    by rewrite (download_files_failure _ _ _ _ _ _ H Hc).
  - rewrite (file_items_cons_true _ _ H).
    by rewrite (download_files_unwritable _ _ _ _ _ _ H Hc Hw).
  - rewrite (file_items_cons_true _ _ H).
    pose proof (download_files_saved E client item (file_items rest) d c
                  H Hc Hw) as Heq'.
    cbv zeta in Heq'. by rewrite Heq', IH.
Qed.

(** X8.  The fetch depends on the run's text and on its file elements, in
    their order, and on nothing else of the run: two runs that agree on
    these are fetched alike, whatever their status and whatever other
    elements stand between the files. *)
Theorem fetch_depends_on_text_and_files_only E client run run' d :
  output_text run' = output_text run ->
  file_items (output run') = file_items (output run) ->
  fetch_artifacts E client run' d = fetch_artifacts E client run d.
Proof.
  intros Htext Hfiles. rewrite !fetch_artifacts_eq, Htext.
  rewrite (download_files_file_items E client (output run')).
  rewrite (download_files_file_items E client (output run)).
  by rewrite Hfiles.
Qed.

Lemma fetch_depends_on_text_and_files_only_witness :
  fetch_artifacts sales_env (service sales_env "sk-test") padded_run
    sales_disk
  = fetch_artifacts sales_env (service sales_env "sk-test") sales_run
      sales_disk.
Proof.
  apply (fetch_depends_on_text_and_files_only sales_env
           (service sales_env "sk-test") sales_run padded_run sales_disk);
    reflexivity.
Defined.

(** ** Where an [OSError] comes from *)

(** In [submit] only opening the workbook raises an [OSError], and then
    nothing has happened yet. *)
Lemma submit_oserror E workbook question api_key d p :
  result_of (submit E workbook question api_key d) = Raises (OSError p) ->
  p = workbook
  /\ (d !! realpath E workbook = None \/ readable E workbook = false)
  /\ trace_of (submit E workbook question api_key d) = [].
Proof.
  destruct (submit E workbook question api_key d) as [[r d1] t1] eqn:H.
  project. intros Hres. unfold submit, start_job in H.
  bind_step H.
  2:{ destruct Hstep as (_ & _ & msg & ->). simplify_eq. }
  bind_step H.
  2:{ destruct Hstep0 as (Hmissing & -> & ->). by simplify_eq. }
  destruct Hstep0 as (_ & _ & ->).
  bind_step H.
  2:{ destruct Hstep0 as (msg & _ & ->). simplify_eq. }
  bind_step H.
  2:{ destruct Hstep1 as (msg & _ & ->). simplify_eq. }
  bind_step H.
  2:{ destruct Hstep2 as (msg & _ & ->). simplify_eq. }
  bind_step H.
  2:{ destruct Hstep3 as (msg & _ & ->). simplify_eq. }
  bind_step H.
  2:{ destruct Hstep4 as (msg & _ & ->). simplify_eq. }
  unfold ret in H. simplify_eq.
Qed.

(** In the loop only opening a save name for writing does, after its
    content was fetched. *)
Lemma download_files_oserror E client items d p :
  result_of (download_files E client items d) = Raises (OSError p) ->
  exists item content,
    In item (file_items items)
    /\ p = save_name item
    /\ writable E p = false
    /\ on_files_content client (file_id item) = Answer content.
Proof.
  revert d. induction items as [|item rest IH]; intros d; [done|].
  destruct (download_files_cases E client item rest d)
    as [(H & Heq) | [(H & msg & Hc & Heq) | [(H & c & Hc & Hw & Heq)
       | (H & c & Hc & Hw & Heq)]]]; cbv zeta in Heq; rewrite Heq;
    project; intros Hres.
  - rewrite (file_items_cons_false _ _ H). by apply (IH d).
  - simplify_eq.
  - simplify_eq. exists item, c. rewrite (file_items_cons_true _ _ H).
    split; [by left|done].
  - destruct (IH _ Hres) as (item' & c' & Hin & Hrest).
    exists item', c'. rewrite (file_items_cons_true _ _ H).
    split; [by right|done].
Qed.

(** X9.  When a run ends with an [OSError], either it is for the workbook,
    which is missing or unreadable, and nothing at all has happened; or it
    is for the save name of a file element of the polled run, which may
    not be written, and the content of that element had been
    downloaded. *)
Theorem oserror_is_the_workbook_or_a_save_name
    E workbook question api_key d p :
  result_of (run_analysis E workbook question api_key d)
  = Raises (OSError p) ->
  (p = workbook
   /\ (d !! realpath E workbook = None \/ readable E workbook = false)
   /\ trace_of (run_analysis E workbook question api_key d) = [])
  \/ (exists client run item content,
        result_of (submit E workbook question api_key d)
        = Returns (client, run)
        /\ In item (file_items (output run))
        /\ p = save_name item
        /\ writable E p = false
        /\ on_files_content client (file_id item) = Answer content).
Proof.
  destruct (result_of (submit E workbook question api_key d))
    as [[client run]|e] eqn:Hs.
  - rewrite (run_analysis_goes_on _ _ _ _ _ _ _ Hs). project.
    rewrite fetch_artifacts_result. intros Hres. right.
    destruct (download_files_oserror _ _ _ _ _ Hres)
      as (item & content & Hrest).
    by exists client, run, item, content.
  - rewrite (run_analysis_stops_with_submit _ _ _ _ _ _ Hs). project.
    intros Hres. simplify_eq. left.
    by apply submit_oserror.
Qed.

Lemma oserror_is_the_workbook_or_a_save_name_witness :
  result_of (run_analysis read_only_env "sales.xlsx" DEFAULT_QUESTION None
               sales_disk) = Raises (OSError "data_dictionary.json")
  /\ trace_of (run_analysis read_only_env "sales.xlsx" DEFAULT_QUESTION None
                 sales_disk) <> []
  /\ writable read_only_env "data_dictionary.json" = false.
Proof.
  assert (result_of (run_analysis read_only_env "sales.xlsx"
                       DEFAULT_QUESTION None sales_disk)
          = Raises (OSError "data_dictionary.json")) as Hres
    by (vm_compute; reflexivity).
  split; [exact Hres|]. split; [by vm_compute|].
  destruct (oserror_is_the_workbook_or_a_save_name read_only_env
              "sales.xlsx" DEFAULT_QUESTION None sales_disk
              "data_dictionary.json" Hres)
    as [(Hwb & _)|(client & run & item & content & _ & _ & _ & Hw & _)].
  - discriminate Hwb.
  - exact Hw.
Defined.

(** ** What is uploaded *)

(** The one upload of [submit] carries what the workbook holds. *)
Lemma submit_upload E workbook question api_key d f purpose :
  In (ev_call (files_create f purpose))
    (trace_of (submit E workbook question api_key d)) ->
  d !! realpath E workbook = Some f
  /\ readable E workbook = true
  /\ purpose = "assistants".
Proof.
  destruct (submit E workbook question api_key d) as [[r d1] t1] eqn:H.
  project. unfold submit, start_job in H.
  bind_step H; [|done].
  bind_step H.
  2:{ by destruct Hstep0 as (_ & _ & ->). }
  destruct Hstep0 as (Hd & Hr & ->).
  do 5 (bind_step H;
        [|simpl; intros Hin;
          repeat (destruct Hin as [Hin|Hin];
                  [try discriminate Hin; by injection Hin as <- <-|]);
          done]).
  unfold ret in H. simplify_eq. simpl. intros Hin.
  repeat (destruct Hin as [Hin|Hin];
          [try discriminate Hin; by injection Hin as <- <-|]).
  done.
Qed.

(** X10.  Whatever a run uploads is what the workbook held when the run
    started, read from a readable file, and it is uploaded for purpose
    [assistants]. *)
Theorem upload_is_the_workbook E workbook question api_key d f purpose :
  In (ev_call (files_create f purpose))
    (trace_of (run_analysis E workbook question api_key d)) ->
  d !! realpath E workbook = Some f
  /\ readable E workbook = true
  /\ purpose = "assistants".
Proof.
  destruct (result_of (submit E workbook question api_key d))
    as [[client run]|e] eqn:Hs.
  - rewrite (run_analysis_goes_on _ _ _ _ _ _ _ Hs). project.
    rewrite in_app_iff. intros [Hin|Hin]; [by apply submit_upload in Hin|].
    by apply fetch_artifacts_calls in Hin as [fid Hfid].
  - rewrite (run_analysis_stops_with_submit _ _ _ _ _ _ Hs). project.
    apply submit_upload.
Qed.

Lemma upload_is_the_workbook_witness :
  In (ev_call (files_create "workbook bytes" "assistants"))
    (trace_of (run_analysis sales_env "sales.xlsx" DEFAULT_QUESTION None
                 sales_disk))
  /\ sales_disk !! realpath sales_env "sales.xlsx" = Some "workbook bytes".
Proof.
  assert (In (ev_call (files_create "workbook bytes" "assistants"))
            (trace_of (run_analysis sales_env "sales.xlsx" DEFAULT_QUESTION
                         None sales_disk))) as Hin
    by (vm_compute; tauto).
  split; [exact Hin|].
  exact (proj1 (upload_is_the_workbook sales_env "sales.xlsx"
                  DEFAULT_QUESTION None sales_disk _ _ Hin)).
Defined.

(** ** Before polling has ended *)

(** X11.  Nothing is printed, downloaded or written before polling has
    ended: a trace that holds a print, a download or a write starts with
    the read of the workbook and the five accepted requests. *)
Theorem nothing_comes_out_before_polling_ends
    E workbook question api_key d :
  prints (trace_of (run_analysis E workbook question api_key d)) <> []
  \/ download_ids (trace_of (run_analysis E workbook question api_key d))
     <> []
  \/ writes (trace_of (run_analysis E workbook question api_key d)) <> [] ->
  exists data fid aid tid rest,
    d !! realpath E workbook = Some data
    /\ trace_of (run_analysis E workbook question api_key d) =
       submit_events workbook data question fid aid tid ++ rest.
Proof.
  destruct (result_of (submit E workbook question api_key d))
    as [[client run]|e] eqn:Hs.
  - intros _.
    destruct (submit_returns _ _ _ _ _ _ _ Hs)
      as (data & uploaded & agent & thread & Hd & _ & _ & Ht).
    rewrite (run_analysis_goes_on _ _ _ _ _ _ _ Hs). project.
    rewrite Ht. by eexists data, _, _, _, _.
  - rewrite (run_analysis_stops_with_submit _ _ _ _ _ _ Hs). project.
    destruct (submit_shape E workbook question api_key d)
      as (_ & n & data & fid & aid & tid & ->).
    destruct (submit_events_quiet n workbook data question fid aid tid)
      as (-> & -> & -> & _).
    intros [H|[H|H]]; done.
Qed.

Lemma nothing_comes_out_before_polling_ends_witness :
  prints (trace_of (run_analysis sales_env "sales.xlsx" DEFAULT_QUESTION
                      None sales_disk)) <> []
  /\ exists data fid aid tid rest,
       sales_disk !! realpath sales_env "sales.xlsx" = Some data
       /\ trace_of (run_analysis sales_env "sales.xlsx" DEFAULT_QUESTION
                      None sales_disk) =
          submit_events "sales.xlsx" data DEFAULT_QUESTION fid aid tid
          ++ rest.
Proof.
  assert (prints (trace_of (run_analysis sales_env "sales.xlsx"
                              DEFAULT_QUESTION None sales_disk)) <> [])
    as Hprints by (vm_compute; discriminate).
  split; [exact Hprints|].
  apply (nothing_comes_out_before_polling_ends sales_env "sales.xlsx"
           DEFAULT_QUESTION None sales_disk).
  left. exact Hprints.
Defined.

(** ** When a run returns *)

(** The loop returns only if every file element was served and could be
    written. *)
Lemma download_files_returns_inv E client items d :
  result_of (download_files E client items d) = Returns tt ->
  Forall (fun item =>
            (exists content,
               on_files_content client (file_id item) = Answer content)
            /\ writable E (save_name item) = true) (file_items items).
Proof.
  revert d. induction items as [|item rest IH]; intros d; [constructor|].
  destruct (download_files_cases E client item rest d)
    as [(H & Heq) | [(H & msg & Hc & Heq) | [(H & c & Hc & Hw & Heq)
       | (H & c & Hc & Hw & Heq)]]]; cbv zeta in Heq; rewrite Heq;
    project; intros Hres; try done.
  - rewrite (file_items_cons_false _ _ H). by apply (IH d).
  - rewrite (file_items_cons_true _ _ H). constructor.
    + split; [by exists c|done].
    + by apply (IH _ Hres).
Qed.

(** X12.  A run returns exactly when polling is reached and answered and
    every file element of the polled run is served and may be written
    under its save name; in every other case it raises. *)
Theorem run_returns_iff_all_files_saved E workbook question api_key d :
  result_of (run_analysis E workbook question api_key d) = Returns tt
  <-> exists client run,
        result_of (submit E workbook question api_key d)
        = Returns (client, run)
        /\ Forall (fun item =>
                     (exists content,
                        on_files_content client (file_id item)
                        = Answer content)
                     /\ writable E (save_name item) = true)
             (file_items (output run)).
Proof.
  destruct (result_of (submit E workbook question api_key d))
    as [[client run]|e] eqn:Hs.
  - rewrite (run_analysis_goes_on _ _ _ _ _ _ _ Hs). project.
    rewrite fetch_artifacts_result. split.
    + intros Hret. exists client, run. split; [done|].
      by apply download_files_returns_inv in Hret.
    + intros (client' & run' & Heq & Hall). simplify_eq.
      by apply download_files_returns.
  - rewrite (run_analysis_stops_with_submit _ _ _ _ _ _ Hs). project.
    split; [done|]. by intros (client & run & Heq & _).
Qed.

Lemma run_returns_iff_all_files_saved_witness :
  result_of (run_analysis sales_env "sales.xlsx" DEFAULT_QUESTION None
               sales_disk) = Returns tt
  /\ result_of (run_analysis read_only_env "sales.xlsx" DEFAULT_QUESTION
                  None sales_disk) <> Returns tt.
Proof.
  split.
  - apply (run_returns_iff_all_files_saved sales_env "sales.xlsx"
             DEFAULT_QUESTION None sales_disk).
    exists (service sales_env "sk-test"), sales_run.
    split; [reflexivity|].
    repeat constructor; by eexists.
  - intros Hret.
    apply (run_returns_iff_all_files_saved read_only_env "sales.xlsx"
             DEFAULT_QUESTION None sales_disk) in Hret
      as (client & run & Hs & Hall).
    vm_compute in Hs. injection Hs as <- <-.
    apply Forall_cons in Hall as [[_ Hw] _]. discriminate Hw.
Defined.

(** ** Where a file is saved *)

(** X13.  A file element is reached when every file element before it is
    served and may be written; if it is served and may be written too, it
    is written under its save name, which is its suggested filename when
    that is not empty and its file id otherwise, with the content the
    service answers for its id.  Its file is on the disk at the end, with
    that content unless a later file element has a save name that denotes
    the same file.  When names are resolved from a working directory, a
    plain save name leads to a file of that directory and one that starts
    with a slash to the file it spells, wherever that is. *)
Theorem file_item_saved_under_its_name
    E client run d pre item post content :
  output run = pre ++ item :: post ->
  is_output_file item = true ->
  Forall (fun earlier =>
            (exists c,
               on_files_content client (file_id earlier) = Answer c)
            /\ writable E (save_name earlier) = true) (file_items pre) ->
  on_files_content client (file_id item) = Answer content ->
  writable E (save_name item) = true ->
  In (ev_write (save_name item) content)
    (trace_of (fetch_artifacts E client run d))
  /\ is_Some (disk_of (fetch_artifacts E client run d)
                !! realpath E (save_name item))
  /\ (Forall (fun later =>
                realpath E (save_name later) <> realpath E (save_name item))
        (file_items post) ->
      disk_of (fetch_artifacts E client run d)
        !! realpath E (save_name item) = Some content)
  /\ (forall s, filename item = Some s -> s <> "" -> save_name item = s)
  /\ (filename item = None \/ filename item = Some "" ->
      save_name item = file_id item)
  /\ (forall cwd,
        (forall p, realpath E p = resolve_from cwd p) ->
        (is_plain_name (save_name item) = true ->
         in_directory cwd (realpath E (save_name item)) = true)
        /\ (is_absolute (save_name item) = true ->
            realpath E (save_name item) = save_name item)).
Proof.
  intros Hout Hkind Hpre Hserved Hwritable.
  destruct (download_files_reaches E client pre item post d content
              Hkind Hpre Hserved Hwritable) as [d1 Hloop].
  rewrite <- Hout in Hloop.
  destruct (download_files_writes_prefix E client post d1) as [n Hn].
  assert (writes (trace_of (fetch_artifacts E client run d)) =
          writes (trace_of (download_files E client pre d))
          ++ (save_name item, content)
             :: writes (trace_of (download_files E client post d1)))
    as Hws.
  { rewrite fetch_artifacts_writes, Hloop. project.
    by rewrite writes_app. }
  split; [|split; [|split; [|split; [|split]]]].
  - apply in_writes. rewrite Hws, in_app_iff. right. by left.
  - rewrite fetch_artifacts_disk, lookup_apply_writes, Hws, last_write_app.
    simpl. rewrite decide_True by done.
    destruct (last_write E _ (writes _)); by eexists.
  - intros Hlater.
    rewrite fetch_artifacts_disk, lookup_apply_writes, Hws, last_write_app.
    simpl. rewrite decide_True by done.
    rewrite last_write_none; [done|].
    eapply Forall2_Forall_l; [exact Hn|].
    apply Forall_forall. intros later Hin w [Hname _]. rewrite Hname.
    rewrite Forall_forall in Hlater. apply Hlater.
    eapply subseteq_take, Hin.
  - intros s Hs Hne. unfold save_name, py_or. rewrite Hs.
    destruct (String.eqb_spec s ""); done.
  - intros [Hs|Hs]; unfold save_name, py_or; by rewrite Hs.
  - intros cwd Hcwd. rewrite Hcwd. split.
    + apply plain_name_in_directory.
    + intros Habs. unfold resolve_from. by rewrite Habs.
Qed.

Lemma file_item_saved_under_its_name_witness :
  disk_of (fetch_artifacts sales_env (service sales_env "sk-test")
             sales_run sales_disk) !! "chart.png"
  = Some "content of f2"
  /\ save_name (file_item "file-42" None) = "file-42"
  /\ In (file_item "file-42" None) (output unnamed_run).
Proof.
  split; [|split; [reflexivity|simpl; auto]].
  apply (file_item_saved_under_its_name sales_env
           (service sales_env "sk-test") sales_run sales_disk
           [ text_item "Region A led sales.";
             file_item "f1" (Some "data_dictionary.json") ]
           (file_item "f2" (Some "chart.png")) [] "content of f2").
  - reflexivity.
  - reflexivity.
  - repeat constructor. by exists "content of f1".
  - reflexivity.
  - reflexivity.
  - constructor.
Defined.
